(** * GainVoltage.C: gain-versus-voltage power-law fit of the ICARUS PMTs

    A shallow embedding of the ROOT macro [GainVoltage(std::string chimney)]
    and the properties of its per-channel pipeline: loading the records of
    one PMT into fixed buffers, the log transform, the re-seeded fit and the
    three-line blocks of the comma-separated fit table.

    What the macro computes itself is modelled as it is written.  What it
    calls from outside is kept abstract:
    - [Double_t] arithmetic and the [TMath] functions, through the class
      [DoubleOps], so that the structural results hold for IEEE doubles as
      well as for the real numbers of the instance [ideal_ops];
    - [TGraph::Fit], a variable [Fit] of the section;
    - the formatting of numbers by [operator<<]: an output line is the list
      of the items inserted into the stream. *)

From Stdlib Require Import ZArith List String Reals Lra Lia Permutation Sorted.
From stdpp Require Import base list strings pretty.

Local Open Scope string_scope.
Local Open Scope Z_scope.
Local Open Scope list_scope.

(** ** Constants of the macro *)

(** [const int NPMT = 10;] *)
Definition NPMT : Z := 10.

(** [const int NPAR = 2;] the number of fit parameters. *)
Definition NPAR : Z := 2.

(** Capacity of the raw buffers: [Double_t voltage_raw[6]] and its siblings. *)
Definition RAW_SIZE : nat := 6.

(** ** Double precision numbers *)

(** The operations of [Double_t] the macro uses.  [of_int] is the implicit
    conversion of an [int] (also of the integer literals [2], [-30], [7],
    [10], [1000], [2000]); [deq] is [operator==]; [Log], [Exp] and [Power]
    are [TMath::Log], [TMath::Exp] and [TMath::Power]. *)
Class DoubleOps (D : Type) := {
  of_int : Z -> D;
  deq : D -> D -> bool;
  dmul : D -> D -> D;
  ddiv : D -> D -> D;
  Log : D -> D;
  Exp : D -> D;
  Power : D -> D -> D
}.

(** ** The input stream *)

(** What one [input_file >> x] on a [double] meets after the white space:
    characters that convert to a number, or characters that do not (the
    extraction fails and the stream goes bad).  A field such as [12abc] is
    the number 12 followed by a failing [abc].  The end of the stream is the
    end of the list. *)
Inductive token (D : Type) : Type :=
| Num (x : D)
| Junk (s : string).
Arguments Num {D} x.
Arguments Junk {D} s.

(** A line of the text file, as the fields it holds; the stream does not
    see line ends, it sees the fields of all lines one after the other. *)
Definition line (D : Type) : Type := list (token D).

Definition stream_of {D : Type} (ls : list (line D)) : list (token D) :=
  concat ls.

(** One record [PMT# Voltage Gain GainError]. *)
Record measurement (D : Type) : Type := Measurement {
  m_pmt : D;
  m_voltage : D;
  m_gain : D;
  m_gain_error : D
}.
Arguments Measurement {D} _ _ _ _.
Arguments m_pmt {D} _.
Arguments m_voltage {D} _.
Arguments m_gain {D} _.
Arguments m_gain_error {D} _.

(** The four fields of a well-formed record. *)
Definition fields_of {D : Type} (m : measurement D) : line D :=
  [Num (m_pmt m); Num (m_voltage m); Num (m_gain m); Num (m_gain_error m)].

(** The stream of a file that holds exactly the records [ms]. *)
Definition stream_of_records {D : Type} (ms : list (measurement D)) : list (token D) :=
  stream_of (map fields_of ms).

(** ** Faults *)

(** A computation of the macro either completes or stores outside an array
    (undefined behaviour in C++; the model stops there and reports the
    index). *)
Inductive outcome (A : Type) : Type :=
| Done (a : A)
| OutOfBounds (i : nat).
Arguments Done {A} a.
Arguments OutOfBounds {A} i.

Definition bind {A B : Type} (c : outcome A) (k : A -> outcome B) : outcome B :=
  match c with
  | Done a => k a
  | OutOfBounds i => OutOfBounds i
  end.

Declare Scope outcome_scope.
Delimit Scope outcome_scope with outcome.
Notation "x <- c ;; k" := (bind c (fun x => k))
  (at level 100, c at next level, right associativity) : outcome_scope.

(** [a[i] = x] on an array of fixed size. *)
Definition store {D : Type} (a : list D) (i : nat) (x : D) : outcome (list D) :=
  if (i <? length a)%nat then Done (<[i := x]> a) else OutOfBounds i.

(** ** Output *)

(** What is inserted into an [ostream] with [<<]. *)
Inductive item (D : Type) : Type :=
| IStr (s : string)
| IInt (z : Z)
| IDbl (x : D)
| IEndl.
Arguments IStr {D} s.
Arguments IInt {D} z.
Arguments IDbl {D} x.
Arguments IEndl {D}.

(** ** ROOT objects *)

(** The state of a [TF1] with two parameters that the macro reads or writes:
    its range, its parameters and, after a fit, their errors and the
    goodness-of-fit figures. *)
Record TF1 (D : Type) : Type := MkTF1 {
  xmin : D;
  xmax : D;
  par0 : D;
  par1 : D;
  parerr0 : D;
  parerr1 : D;
  chisquare : D;
  ndf : Z;
  prob : D
}.
Arguments MkTF1 {D} _ _ _ _ _ _ _ _ _.
Arguments xmin {D} _.
Arguments xmax {D} _.
Arguments par0 {D} _.
Arguments par1 {D} _.
Arguments parerr0 {D} _.
Arguments parerr1 {D} _.
Arguments chisquare {D} _.
Arguments ndf {D} _.
Arguments prob {D} _.

(** [TGraphErrors(n, x, y, ex, ey)]. *)
Record TGraphErrors (D : Type) : Type := MkGraph {
  npoints : nat;
  gx : list D;
  gy : list D;
  gex : list D;
  gey : list D
}.
Arguments MkGraph {D} _ _ _ _ _.
Arguments npoints {D} _.
Arguments gx {D} _.
Arguments gy {D} _.
Arguments gex {D} _.
Arguments gey {D} _.

(** What the run does that can be observed, in the order it does it.  Every
    event carries the number of the PMT (1-based, [pmt_num + 1]) of the loop
    iteration that caused it; the label is not part of the output. *)
Inductive event (D : Type) : Type :=
| Cout (pmt : Z) (l : list (item D))
| Fout (pmt : Z) (l : list (item D))
| FitCall (pmt : Z) (data : TGraphErrors D) (start : TF1 D)
| GainFunc (pmt : Z) (amplitude exponent : D)
| Print (pmt : Z) (file : string).
Arguments Cout {D} pmt l.
Arguments Fout {D} pmt l.
Arguments FitCall {D} pmt data start.
Arguments GainFunc {D} pmt amplitude exponent.
Arguments Print {D} pmt file.

(** Uninitialised stack memory: the contents of [voltage_raw], [gain_raw]
    and [gain_error_raw] when an iteration of the PMT loop declares them. *)
Record stack_junk (D : Type) : Type := MkJunk {
  junk_voltage : nat -> D;
  junk_gain : nat -> D;
  junk_gain_error : nat -> D
}.
Arguments MkJunk {D} _ _ _.
Arguments junk_voltage {D} _ _.
Arguments junk_gain {D} _ _.
Arguments junk_gain_error {D} _ _.

(** The raw buffers and the counter of the reading loop. *)
Record raw_buffers (D : Type) : Type := MkRaw {
  voltage_raw : list D;
  gain_raw : list D;
  gain_error_raw : list D;
  num_data_points : nat
}.
Arguments MkRaw {D} _ _ _ _.
Arguments voltage_raw {D} _.
Arguments gain_raw {D} _.
Arguments gain_error_raw {D} _.
Arguments num_data_points {D} _.

(** The arrays of lines 78 to 99: the regression inputs and their copies
    before the logarithm. *)
Record channel_arrays (D : Type) : Type := MkArrays {
  voltage : list D;
  voltage_error : list D;
  gain : list D;
  gain_error : list D;
  voltage_nolog : list D;
  voltage_error_nolog : list D;
  gain_nolog : list D;
  gain_error_nolog : list D
}.
Arguments MkArrays {D} _ _ _ _ _ _ _ _.
Arguments voltage {D} _.
Arguments voltage_error {D} _.
Arguments gain {D} _.
Arguments gain_error {D} _.
Arguments voltage_nolog {D} _.
Arguments voltage_error_nolog {D} _.
Arguments gain_nolog {D} _.
Arguments gain_error_nolog {D} _.

Section Macro.

Context {D : Type} `{DoubleOps D}.

(** [data->Fit("fit","ME")]: ROOT's minimiser, given the graph and the
    function as it stands (range and starting parameters), returns the
    function with the fitted parameters, their errors and the statistics. *)
Variable Fit : TGraphErrors D -> TF1 D -> TF1 D.

Local Open Scope outcome_scope.

(** *** Reading (lines 59 to 75) *)

Definition fbegin : D := of_int 1000.
Definition fend : D := of_int 2000.

(** [TMath::Power(10,7)] *)
Definition gain_scale : D := Power (of_int 10) (of_int 7).

(** [Double_t voltage_error_raw[6] = {2,2,2,2,2,2};] *)
Definition voltage_error_raw : list D := replicate RAW_SIZE (of_int 2).

Definition fresh_array (junk : nat -> D) : list D :=
  map junk (seq 0 RAW_SIZE).

Definition fresh_buffers (j : stack_junk D) : raw_buffers D :=
  MkRaw (fresh_array (junk_voltage j)) (fresh_array (junk_gain j))
        (fresh_array (junk_gain_error j)) 0.

(** [while (input_file >> p >> v >> g >> ge) { if (p == pmt_num + 1) ... }]
    The loop ends at the first extraction that fails: a field that is not
    a number, or the end of the stream. *)
Fixpoint read_loop (pmt_num : Z) (input : list (token D)) (b : raw_buffers D)
  : outcome (raw_buffers D) :=
  match input with
  | Num p :: Num v :: Num g :: Num ge :: rest =>
      if deq p (of_int (pmt_num + 1)) then
        vr <- store (voltage_raw b) (num_data_points b) v ;;
        gr <- store (gain_raw b) (num_data_points b) (dmul g gain_scale) ;;
        ger <- store (gain_error_raw b) (num_data_points b) (dmul ge gain_scale) ;;
        read_loop pmt_num rest (MkRaw vr gr ger (S (num_data_points b)))
      else read_loop pmt_num rest b
  | _ => Done b
  end.

(** *** The properly sized arrays (lines 78 to 99) *)

(** [a[i]] for an index the loop keeps below [num_data_points]. *)
Definition rd (a : list D) (i : nat) : D := default (of_int 0) (a !! i).

(** [for (int i = 0; i < n; i++) a[i] = f(i);] on a fresh array of size [n]. *)
Definition populate (n : nat) (f : nat -> D) : list D := map f (seq 0 n).

Definition preprocess (b : raw_buffers D) : channel_arrays D :=
  let n := num_data_points b in
  {| voltage := populate n (fun i => Log (rd (voltage_raw b) i));
     gain := populate n (fun i => Log (rd (gain_raw b) i));
     gain_error :=
       populate n (fun i => ddiv (rd (gain_error_raw b) i) (rd (gain_raw b) i));
     voltage_error :=
       populate n (fun i => ddiv (rd voltage_error_raw i) (rd (voltage_raw b) i));
     voltage_nolog := populate n (fun i => rd (voltage_raw b) i);
     voltage_error_nolog := populate n (fun i => rd voltage_error_raw i);
     gain_nolog := populate n (fun i => rd (gain_raw b) i);
     gain_error_nolog := populate n (fun i => rd (gain_error_raw b) i) |}.

(** *** The fit (lines 110 to 152) *)

(** [new TF1("fit", "pol1", fbegin, fend)]: parameters and statistics at 0. *)
Definition TF1_new (lo hi : D) : TF1 D :=
  MkTF1 lo hi (of_int 0) (of_int 0) (of_int 0) (of_int 0) (of_int 0) 0 (of_int 0).

(** [fit->SetParameters(a, b)] *)
Definition SetParameters (a b : D) (f : TF1 D) : TF1 D :=
  MkTF1 (xmin f) (xmax f) a b (parerr0 f) (parerr1 f) (chisquare f) (ndf f) (prob f).

(** [fit->GetParameters(par)] *)
Definition GetParameters (f : TF1 D) : D * D := (par0 f, par1 f).

(** [for (int j = 0; j < 9; j++) { fit->GetParameters(par);
    fit->SetParameters(par[0], par[1]); data->Fit("fit","ME"); }]
    with [passes] for the bound; returns the function after the last pass
    and the calls of [Fit] it made. *)
Fixpoint refit (passes : nat) (pmt : Z) (data : TGraphErrors D) (fit : TF1 D)
  : TF1 D * list (event D) :=
  match passes with
  | O => (fit, [])
  | S passes' =>
      let par := GetParameters fit in
      let seeded := SetParameters (fst par) (snd par) fit in
      let '(final, calls) := refit passes' pmt data (Fit data seeded) in
      (final, FitCall pmt data seeded :: calls)
  end.

(** *** The fit table (lines 155 to 170) *)

(** One of the first two lines of a block. *)
Definition placeholder_line : list (item D) :=
  [IStr "--"; IStr ","; IStr "--";
   IStr ","; IStr "--"; IStr ","; IStr "--";
   IStr ","; IStr "--";
   IStr ","; IStr "--";
   IStr ","; IStr "--";
   IEndl].

(** The third line of a block. *)
Definition data_line (constant exponent : D) (fit : TF1 D) : list (item D) :=
  [IDbl constant; IStr ","; IDbl (parerr0 fit);
   IStr ","; IDbl exponent; IStr ","; IDbl (parerr1 fit);
   IStr ","; IDbl (chisquare fit);
   IStr ","; IInt (ndf fit);
   IStr ","; IDbl (prob fit);
   IEndl].

(** [outnamepdf[pmt_num]] *)
Definition outnamepdf (chimney : string) (pmt_num : Z) : string :=
  chimney +:+ "_" +:+ pretty (pmt_num + 1) +:+ "_gainvsvoltage.pdf".

(** *** One iteration of the PMT loop (lines 53 to 201) *)

(** [new TGraphErrors(num_data_points, voltage, gain, voltage_error, gain_error)] *)
Definition graph_of (n : nat) (a : channel_arrays D) : TGraphErrors D :=
  MkGraph n (voltage a) (gain a) (voltage_error a) (gain_error a).

(** Lines 110 and 138 to 145: the function is created, seeded with
    [(-30, 7)], fitted, and fitted again in the loop of [refit]. *)
Definition fit_channel (pmt : Z) (data : TGraphErrors D) : TF1 D * list (event D) :=
  let fit := TF1_new fbegin fend in
  let fit := SetParameters (of_int (-30)) (of_int 7) fit in
  let first_call := FitCall pmt data fit in
  let fit := Fit data fit in
  let '(fit, calls) := refit 9 pmt data fit in
  (fit, first_call :: calls).

(** Lines 101 to 200, for a counter [n] and the arrays [a]: the test of the
    number of points with its [continue], then fit, table block and plots. *)
Definition fit_and_report (chimney : string) (pmt_num : Z) (n : nat)
    (a : channel_arrays D) : list (event D) :=
  if negb (n =? 3)%nat && negb (n =? 6)%nat then
    [Cout (pmt_num + 1)
       [IStr "Improper number of data points for PMT ";
        IInt (pmt_num + 1); IStr ". SKIPPING"; IEndl]]
  else
    let data := graph_of n a in
    let '(fit, calls) := fit_channel (pmt_num + 1) data in
    let par := GetParameters fit in
    let constant := fst par in
    let exponent := snd par in
    let amplitude := Exp constant in
    [Cout (pmt_num + 1) [IStr "Fitting "; IInt (pmt_num + 1); IEndl]]
    ++ calls
    ++ [Fout (pmt_num + 1) placeholder_line;
        Fout (pmt_num + 1) placeholder_line;
        Fout (pmt_num + 1) (data_line constant exponent fit);
        GainFunc (pmt_num + 1) amplitude exponent;
        Print (pmt_num + 1) (outnamepdf chimney pmt_num)].

Definition analyze (chimney : string) (junk : stack_junk D)
    (input : list (token D)) (pmt_num : Z) : outcome (list (event D)) :=
  b <- read_loop pmt_num input (fresh_buffers junk) ;;
  Done (fit_and_report chimney pmt_num (num_data_points b) (preprocess b)).

(** *** The macro *)

(** The body of the loop for the PMT numbers [pmts], one after the other;
    [junk] gives the uninitialised memory each iteration finds. *)
Fixpoint analyze_each (chimney : string) (junk : Z -> stack_junk D)
    (input : list (token D)) (pmts : list Z) : outcome (list (event D)) :=
  match pmts with
  | [] => Done []
  | pmt_num :: later =>
      evs <- analyze chimney (junk pmt_num) input pmt_num ;;
      rest <- analyze_each chimney junk input later ;;
      Done (evs ++ rest)
  end.

(** [for (int pmt_num = 0; pmt_num < NPMT; pmt_num++)]: every iteration
    opens [chimney + ".txt"] again and reads the same [input]. *)
Definition GainVoltage (chimney : string) (junk : Z -> stack_junk D)
    (input : list (token D)) : outcome (list (event D)) :=
  analyze_each chimney junk input (seqZ 0 NPMT).

End Macro.

(** ** The vocabulary of the properties *)

Section Vocabulary.

Context {D : Type} `{DoubleOps D}.

(** The records the reading loop goes through: the complete groups of four
    numbers before the first extraction that fails. *)
Fixpoint records (input : list (token D)) : list (measurement D) :=
  match input with
  | Num p :: Num v :: Num g :: Num ge :: rest =>
      Measurement p v g ge :: records rest
  | _ => []
  end.

(** The test [p == pmt_num + 1] on a record. *)
Definition matches (pmt_num : Z) (m : measurement D) : bool :=
  deq (m_pmt m) (of_int (pmt_num + 1)).

(** The records of one PMT, in the order of the input, and their number. *)
Definition matching (pmt_num : Z) (input : list (token D)) : list (measurement D) :=
  List.filter (matches pmt_num) (records input).

Definition count (pmt_num : Z) (input : list (token D)) : nat :=
  length (matching pmt_num input).

(** The rule of three or six points. *)
Definition valid_count (n : nat) : bool := (n =? 3)%nat || (n =? 6)%nat.

(** The reading loop on records instead of fields. *)
Fixpoint load (pmt_num : Z) (ms : list (measurement D)) (b : raw_buffers D)
  : outcome (raw_buffers D) :=
  match ms with
  | [] => Done b
  | m :: ms' =>
      if matches pmt_num m then
        (vr <- store (voltage_raw b) (num_data_points b) (m_voltage m) ;;
         gr <- store (gain_raw b) (num_data_points b) (dmul (m_gain m) gain_scale) ;;
         ger <- store (gain_error_raw b) (num_data_points b)
                      (dmul (m_gain_error m) gain_scale) ;;
         load pmt_num ms' (MkRaw vr gr ger (S (num_data_points b))))%outcome
      else load pmt_num ms' b
  end.

(** The regression inputs as the specification words them, from the records
    of a PMT: physical gain is raw gain times [10^7], the logarithms, and the
    relative errors with the fixed voltage error of 2. *)
Definition physical (x : D) : D := dmul x gain_scale.

Definition arrays_of (ms : list (measurement D)) : channel_arrays D :=
  {| voltage := map (fun m => Log (m_voltage m)) ms;
     voltage_error := map (fun m => ddiv (of_int 2) (m_voltage m)) ms;
     gain := map (fun m => Log (physical (m_gain m))) ms;
     gain_error :=
       map (fun m => ddiv (physical (m_gain_error m)) (physical (m_gain m))) ms;
     voltage_nolog := map m_voltage ms;
     voltage_error_nolog := map (fun _ => of_int 2) ms;
     gain_nolog := map (fun m => physical (m_gain m)) ms;
     gain_error_nolog := map (fun m => physical (m_gain_error m)) ms |}.

(** The buffers are as declared: six cells each, the counter within them. *)
Definition buffers_ok (b : raw_buffers D) : Prop :=
  length (voltage_raw b) = RAW_SIZE /\ length (gain_raw b) = RAW_SIZE /\
  length (gain_error_raw b) = RAW_SIZE /\ (num_data_points b <= RAW_SIZE)%nat.

(** No PMT of the loop has more records than the buffers have cells. *)
Definition within_capacity (input : list (token D)) : Prop :=
  forall k, 0 <= k < NPMT -> (count k input <= RAW_SIZE)%nat.

(** *** Reading a trace *)

Definition label (e : event D) : Z :=
  match e with
  | Cout k _ | Fout k _ | FitCall k _ _ | GainFunc k _ _ | Print k _ => k
  end.

(** The events of one PMT. *)
Definition events_of (k : Z) (tr : list (event D)) : list (event D) :=
  List.filter (fun e => label e =? k) tr.

(** The lines written to the text file, each with the PMT that wrote it. *)
Definition table_of (tr : list (event D)) : list (Z * list (item D)) :=
  flat_map (fun e => match e with Fout k l => [(k, l)] | _ => [] end) tr.

(** The text file: its lines in the order they were written. *)
Definition fit_table (tr : list (event D)) : list (list (item D)) :=
  map snd (table_of tr).

(** The lines of the text file that one PMT wrote. *)
Definition lines_of (k : Z) (tr : list (event D)) : list (list (item D)) :=
  fit_table (events_of k tr).

(** The lines one PMT sent to the console. *)
Definition diagnostics_of (k : Z) (tr : list (event D)) : list (list (item D)) :=
  flat_map (fun e => match e with Cout _ l => [l] | _ => [] end) (events_of k tr).

(** The calls of [Fit] for one PMT: the graph and the function as it stood. *)
Definition fits_of (k : Z) (tr : list (event D)) : list (TGraphErrors D * TF1 D) :=
  flat_map (fun e => match e with FitCall _ g f => [(g, f)] | _ => [] end)
           (events_of k tr).

(** The diagnostic of a skipped PMT. *)
Definition skip_message (k : Z) : list (item D) :=
  [IStr "Improper number of data points for PMT "; IInt k; IStr ". SKIPPING"; IEndl].

(** The PMT numbers (1-based) whose number of records passes the rule, in
    increasing order. *)
Definition fitted_channels (input : list (token D)) : list Z :=
  List.filter (fun k => valid_count (count (k - 1) input)) (seqZ 1 NPMT).

(** What one iteration of the PMT loop does when the records of its PMT
    fit the buffers: the test, the fit and the report on the regression
    inputs of these records. *)
Definition channel_events (Fit : TGraphErrors D -> TF1 D -> TF1 D)
    (chimney : string) (input : list (token D)) (pmt_num : Z) : list (event D) :=
  fit_and_report Fit chimney pmt_num (count pmt_num input)
                 (arrays_of (matching pmt_num input)).

(** The function as it stands when each of [n] successive passes calls
    [Fit], the first of them with [start]: a pass hands its fitted
    parameters to the next. *)
Fixpoint pass_starts (Fit : TGraphErrors D -> TF1 D -> TF1 D) (n : nat)
    (data : TGraphErrors D) (start : TF1 D) : list (TF1 D) :=
  match n with
  | O => []
  | S n' =>
      let fitted := Fit data start in
      start :: pass_starts Fit n' data
                 (SetParameters (par0 fitted) (par1 fitted) fitted)
  end.

(** The text file a run leaves, when it completes. *)
Definition written_table (o : outcome (list (event D)))
  : outcome (list (list (item D))) :=
  match o with
  | Done tr => Done (fit_table tr)
  | OutOfBounds i => OutOfBounds i
  end.

(** *** Reading a line *)

Definition is_comma (i : item D) : bool :=
  match i with
  | IStr s => String.eqb s ","
  | _ => false
  end.

(** The comma-separated fields of a line, up to its end. *)
Fixpoint fields (l : list (item D)) : list (list (item D)) :=
  match l with
  | [] => [[]]
  | IEndl :: _ => [[]]
  | i :: l' =>
      if is_comma i then [] :: fields l'
      else match fields l' with
           | f :: fs => (i :: f) :: fs
           | [] => [[i]]
           end
  end.

(** The characters of a line, for a formatting [show] of the numbers. *)
Definition render_item (show : D -> string) (i : item D) : string :=
  match i with
  | IStr s => s
  | IInt z => pretty z
  | IDbl x => show x
  | IEndl => String (Ascii.ascii_of_nat 10) EmptyString
  end.

Definition render (show : D -> string) (l : list (item D)) : string :=
  String.concat "" (map (render_item show) l).

End Vocabulary.

(** ** Ideal arithmetic: the real numbers *)

Definition Req_bool (x y : R) : bool :=
  if Req_dec_T x y then true else false.

(** The real numbers as numbers: no rounding, no infinities and no NaN.
    The instance serves to run the macro on example files, where all that
    matters of the arithmetic is how [p == pmt_num + 1] goes on whole
    numbers; nothing that is proved with it is a statement about the values
    double precision computes. *)
#[export] Instance ideal_ops : DoubleOps R := {|
  of_int := IZR;
  deq := Req_bool;
  dmul := Rmult;
  ddiv := Rdiv;
  Log := ln;
  Exp := exp;
  Power := Rpower
|}.

(** Sums over the points of a graph. *)
Definition Rsum (l : list R) : R := fold_right Rplus 0%R l.

(** An ordinary least-squares line through the points of the graph: one
    function that can stand for [Fit] where a property is tried on an
    example.  It keeps the errors and the probability of the function it is
    given and reports [n - 2] degrees of freedom. *)
Definition least_squares (g : TGraphErrors R) (f : TF1 R) : TF1 R :=
  let n := INR (npoints g) in
  let sx := Rsum (gx g) in
  let sy := Rsum (gy g) in
  let sxx := Rsum (map (fun x => x * x)%R (gx g)) in
  let sxy := Rsum (zip_with Rmult (gx g) (gy g)) in
  let c1 := ((n * sxy - sx * sy) / (n * sxx - sx * sx))%R in
  let c0 := ((sy - c1 * sx) / n)%R in
  let chi2 := Rsum (zip_with (fun x y => (y - c0 - c1 * x) * (y - c0 - c1 * x))%R
                             (gx g) (gy g)) in
  MkTF1 (xmin f) (xmax f) c0 c1 (parerr0 f) (parerr1 f) chi2
        (Z.of_nat (npoints g) - 2) (prob f).

(** Stack memory that happens to hold zeros. *)
Definition zero_junk (pmt_num : Z) : stack_junk R :=
  MkJunk (fun _ => 0%R) (fun _ => 0%R) (fun _ => 0%R).

(** Stack memory that happens to hold ones. *)
Definition one_junk (pmt_num : Z) : stack_junk R :=
  MkJunk (fun _ => 1%R) (fun _ => 1%R) (fun _ => 1%R).

(** A record of PMT [k] at [v] volts. *)
Definition row (k v : Z) : measurement R :=
  Measurement (IZR k) (IZR v) (IZR v / 10000)%R (1 / 100)%R.

(** A file with three records of PMT 1. *)
Definition three_rows : list (measurement R) :=
  [row 1 1000; row 1 1500; row 1 2000].

(** A file with seven records of PMT 1. *)
Definition seven_rows : list (measurement R) :=
  [row 1 1000; row 1 1100; row 1 1200; row 1 1300; row 1 1400; row 1 1500;
   row 1 1600].

(** A file whose first line is a heading and whose other lines are the
    three records of PMT 1. *)
Definition headed_file : list (line R) :=
  [Junk "PMT#"; Junk "Voltage"; Junk "Gain"; Junk "GainError"]
  :: map fields_of three_rows.

(** A file with three records of PMT 2 and none of any other PMT. *)
Definition pmt2_rows : list (measurement R) :=
  [row 2 1000; row 2 1500; row 2 2000].

(** A file with three records of PMT 1 and three of PMT 3, interleaved. *)
Definition two_pmt_rows : list (measurement R) :=
  [row 1 1000; row 3 1000; row 1 1500; row 3 1500; row 1 2000; row 3 2000].

(** ** File and canvas names (lines 36 to 47, 56, 118 to 121) *)




(** [char tempname[100];] *)
Definition TEMPNAME_SIZE : nat := 100.

(** [sprintf(tempname, "c_%d", pmt_num);] the characters written before the
    terminating zero. *)
Definition tempname (pmt_num : Z) : string := "c_" +:+ pretty pmt_num.

(** [std::string canvasTitle = chimney + "_" + std::to_string(pmt_num + 1);] *)
Definition canvasTitle (chimney : string) (pmt_num : Z) : string :=
  chimney +:+ "_" +:+ pretty (pmt_num + 1).

(** [std::string outnamepdf[10];] *)
Definition OUTNAMEPDF_SIZE : nat := 10.

(** [for (int i = 0; i < NPMT; i++) outnamepdf[i] = chimney + "_" +
    std::to_string(i + 1) + "_gainvsvoltage.pdf";] over the indices [idx]. *)
Fixpoint fill_outnamepdf (chimney : string) (idx : list Z) (a : list string)
  : outcome (list string) :=
  match idx with
  | [] => Done a
  | i :: later =>
      (a' <- store a (Z.to_nat i) (outnamepdf chimney i) ;;
       fill_outnamepdf chimney later a')%outcome
  end.

(** Lines 37 to 41: the array of names, empty strings at first. *)
Definition outnamepdf_array (chimney : string) : outcome (list string) :=
  fill_outnamepdf chimney (seqZ 0 NPMT) (replicate OUTNAMEPDF_SIZE "").

(** *** More ways to read a trace *)

(** The lines on the console, each with the PMT that printed it. *)
Definition console_of {D : Type} (tr : list (event D)) : list (Z * list (item D)) :=
  flat_map (fun e => match e with Cout k l => [(k, l)] | _ => [] end) tr.

(** The PDF files printed, each with the PMT it shows. *)
Definition prints_of {D : Type} (tr : list (event D)) : list (Z * string) :=
  flat_map (fun e => match e with Print k f => [(k, f)] | _ => [] end) tr.

(** The console line of a PMT that is fitted. *)
Definition fitting_message {D : Type} (k : Z) : list (item D) :=
  [IStr "Fitting "; IInt k; IEndl].

(** * Properties *)

(** ** Arrays *)

Lemma store_in_bounds {D : Type} (a : list D) (i : nat) (x : D) :
  (i < length a)%nat -> store a i x = Done (<[i := x]> a).
Proof.
  intros Hi. unfold store.
  destruct (Nat.ltb_spec i (length a)); [reflexivity | lia].
Qed.

Lemma store_out_of_bounds {D : Type} (a : list D) (i : nat) (x : D) :
  (length a <= i)%nat -> store a i x = OutOfBounds i.
Proof.
  intros Hi. unfold store.
  destruct (Nat.ltb_spec i (length a)); [lia | reflexivity].
Qed.

(** After [a[n] = x] the first [n + 1] cells are the first [n] cells of
    before and [x]. *)
Lemma take_succ_insert {D : Type} (a : list D) (n : nat) (x : D) :
  (n < length a)%nat -> take (S n) (<[n := x]> a) = take n a ++ [x].
Proof.
  revert n. induction a as [|y a IH]; intros n Hn; simpl in Hn; [lia|].
  destruct n as [|n]; simpl.
  - now rewrite take_0.
  - f_equal. apply IH. lia.
Qed.

Section Reading.

Context {D : Type} `{DoubleOps D}.

(** The loop over the fields is the loop over the records: it sees the
    input only through [records]. *)
Lemma read_loop_load (pmt_num : Z) (input : list (token D)) :
  forall b, read_loop pmt_num input b = load pmt_num (records input) b.
Proof.
  remember (length input) as n eqn:Hn.
  assert (Hle : (length input <= n)%nat) by lia. clear Hn.
  revert input Hle. induction n as [|n IH]; intros input Hle b.
  - destruct input; [reflexivity | simpl in Hle; lia].
  - destruct input as [|[p|s] [|[v|s'] [|[g|s''] [|[ge|s'''] rest]]]];
      try reflexivity.
    simpl in Hle. cbn [read_loop records load]. unfold matches. cbn [m_pmt m_voltage m_gain m_gain_error].
    destruct (deq p (of_int (pmt_num + 1))).
    + destruct (store (voltage_raw b) (num_data_points b) v); [|reflexivity].
      destruct (store (gain_raw b) (num_data_points b) (dmul g gain_scale));
        [|reflexivity].
      destruct (store (gain_error_raw b) (num_data_points b) (dmul ge gain_scale));
        [|reflexivity].
      cbn [bind]. apply IH. lia.
    + apply IH. lia.
Qed.

(** A file of well-formed records is read back as these records. *)
Lemma records_stream_of_records (ms : list (measurement D)) :
  records (stream_of_records ms) = ms.
Proof.
  unfold stream_of_records, stream_of.
  induction ms as [|[p v g ge] ms IH]; [reflexivity|].
  cbn [map concat fields_of app records m_pmt m_voltage m_gain m_gain_error].
  now rewrite IH.
Qed.

(** Fewer than four numbers and then the end, or a field that is not a
    number: the loop has ended, whatever follows. *)
Lemma records_stop (xs : list D) (rest : list (token D)) :
  (length xs < 4)%nat ->
  (rest = [] \/ exists s rest', rest = Junk s :: rest') ->
  records (map Num xs ++ rest) = [].
Proof.
  intros Hlen Hrest.
  destruct xs as [|x1 [|x2 [|x3 [|x4 xs]]]]; simpl in Hlen; try lia;
    destruct Hrest as [-> | (s & rest' & ->)]; reflexivity.
Qed.

Lemma records_app (ms : list (measurement D)) (rest : list (token D)) :
  records (stream_of_records ms ++ rest) = ms ++ records rest.
Proof.
  unfold stream_of_records, stream_of.
  induction ms as [|[p v g ge] ms IH]; [reflexivity|].
  cbn [map concat fields_of app records m_pmt m_voltage m_gain m_gain_error].
  now rewrite IH.
Qed.

Lemma fresh_buffers_ok (j : stack_junk D) : buffers_ok (fresh_buffers j).
Proof.
  unfold buffers_ok, fresh_buffers, fresh_array, RAW_SIZE; cbn.
  repeat split; lia.
Qed.

(** Loading within the capacity: the counter grows by the number of records
    of the PMT and the cells below it hold their values, in input order. *)
Lemma load_within (pmt_num : Z) (ms : list (measurement D)) :
  forall b,
    buffers_ok b ->
    (num_data_points b + length (List.filter (matches pmt_num) ms) <= RAW_SIZE)%nat ->
    exists b',
      load pmt_num ms b = Done b' /\ buffers_ok b' /\
      num_data_points b'
      = (num_data_points b + length (List.filter (matches pmt_num) ms))%nat /\
      take (num_data_points b') (voltage_raw b')
      = take (num_data_points b) (voltage_raw b)
        ++ map m_voltage (List.filter (matches pmt_num) ms) /\
      take (num_data_points b') (gain_raw b')
      = take (num_data_points b) (gain_raw b)
        ++ map (fun m => physical (m_gain m)) (List.filter (matches pmt_num) ms) /\
      take (num_data_points b') (gain_error_raw b')
      = take (num_data_points b) (gain_error_raw b)
        ++ map (fun m => physical (m_gain_error m))
               (List.filter (matches pmt_num) ms).
Proof.
  induction ms as [|m ms IH]; intros b Hok Hfit.
  - exists b. cbn. rewrite !app_nil_r, Nat.add_0_r. repeat split; auto; apply Hok.
  - cbn [load List.filter] in *. destruct (matches pmt_num m) eqn:Hm.
    + cbn [length] in Hfit. destruct Hok as (Hv & Hg & Hge & Hn).
      rewrite !store_in_bounds by lia. cbn [bind].
      set (b1 := MkRaw _ _ _ _).
      destruct (IH b1) as (b' & Hload & Hok' & Hnum & Tv & Tg & Tge).
      { unfold buffers_ok, b1; cbn. rewrite !length_insert. repeat split; lia. }
      { unfold b1; cbn. lia. }
      exists b'. split; [exact Hload|]. split; [exact Hok'|].
      unfold b1 in Hnum, Tv, Tg, Tge; cbn in Hnum, Tv, Tg, Tge.
      rewrite !take_succ_insert in * by lia.
      cbn [length map]. rewrite Tv, Tg, Tge, Hnum, <- !app_assoc.
      repeat split; try reflexivity. lia.
    + apply IH; assumption.
Qed.

(** Loading beyond the capacity: the first store past the last cell is at
    index [RAW_SIZE]. *)
Lemma load_overflow (pmt_num : Z) (ms : list (measurement D)) :
  forall b,
    buffers_ok b ->
    (RAW_SIZE < num_data_points b + length (List.filter (matches pmt_num) ms))%nat ->
    load pmt_num ms b = OutOfBounds RAW_SIZE.
Proof.
  induction ms as [|m ms IH]; intros b Hok Hover.
  - cbn in Hover. destruct Hok as (_ & _ & _ & Hn). lia.
  - cbn [load List.filter] in *. destruct (matches pmt_num m) eqn:Hm.
    + cbn [length] in Hover. destruct Hok as (Hv & Hg & Hge & Hn).
      destruct (Nat.eq_dec (num_data_points b) RAW_SIZE) as [Hfull | Hroom].
      * rewrite store_out_of_bounds by lia. cbn [bind]. now rewrite Hfull.
      * rewrite !store_in_bounds by lia. cbn [bind]. apply IH.
        -- unfold buffers_ok; cbn. rewrite !length_insert. repeat split; lia.
        -- cbn. lia.
    + apply IH; assumption.
Qed.

End Reading.

(** ** The regression inputs *)

Section Preprocessing.

Context {D : Type} `{DoubleOps D}.

Lemma map_lookup_Some {A B : Type} (f : A -> B) (xs : list A) (i : nat) (x : A) :
  xs !! i = Some x -> map f xs !! i = Some (f x).
Proof.
  revert i. induction xs as [|y xs IH]; intros [|i] Hi; try discriminate.
  - cbn in *. congruence.
  - cbn in *. now apply IH.
Qed.

(** A cell below the counter holds the value of the record it was loaded
    from. *)
Lemma rd_loaded {M : Type} (a : list D) (n : nat) (xs : list M) (fa : M -> D)
    (i : nat) (m : M) :
  take n a = map fa xs -> xs !! i = Some m -> rd a i = fa m.
Proof.
  intros Htake Hi. unfold rd.
  assert (Hl : take n a !! i = Some (fa m)).
  { rewrite Htake. now apply map_lookup_Some. }
  apply lookup_take_Some in Hl as [-> _]. reflexivity.
Qed.

Lemma rd_voltage_error_raw (i : nat) :
  (i < RAW_SIZE)%nat -> rd voltage_error_raw i = of_int 2.
Proof.
  intros Hi. unfold rd, voltage_error_raw.
  now rewrite lookup_replicate_2.
Qed.

Lemma populate_from {M : Type} (xs : list M) (G : nat -> D) (G' : M -> D) :
  forall s,
    (forall i m, xs !! i = Some m -> G (s + i)%nat = G' m) ->
    map G (seq s (length xs)) = map G' xs.
Proof.
  induction xs as [|x xs IH]; intros s HG; [reflexivity|].
  cbn [length seq map]. f_equal.
  - rewrite <- (HG 0%nat x eq_refl). f_equal. lia.
  - apply IH. intros i m Hi. rewrite <- (HG (S i) m Hi). f_equal. lia.
Qed.

Lemma populate_records {M : Type} (xs : list M) (G : nat -> D) (G' : M -> D) :
  (forall i m, xs !! i = Some m -> G i = G' m) ->
  populate (length xs) G = map G' xs.
Proof. intros HG. unfold populate. now apply populate_from. Qed.

(** The arrays of lines 78 to 99 are the regression inputs of the
    specification, computed from the records that were loaded. *)
Lemma preprocess_loaded (b : raw_buffers D) (xs : list (measurement D)) :
  (length xs <= RAW_SIZE)%nat ->
  num_data_points b = length xs ->
  take (num_data_points b) (voltage_raw b) = map m_voltage xs ->
  take (num_data_points b) (gain_raw b) = map (fun m => physical (m_gain m)) xs ->
  take (num_data_points b) (gain_error_raw b)
  = map (fun m => physical (m_gain_error m)) xs ->
  preprocess b = arrays_of xs.
Proof.
  intros Hcap Hn Tv Tg Tge. unfold preprocess, arrays_of. rewrite Hn.
  assert (Hlt : forall i m, xs !! i = Some m -> (i < RAW_SIZE)%nat).
  { intros i m Hi. apply lookup_lt_Some in Hi. lia. }
  f_equal; apply populate_records; intros i m Hi;
    rewrite ?(rd_loaded _ _ _ _ _ _ Tv Hi), ?(rd_loaded _ _ _ _ _ _ Tg Hi),
            ?(rd_loaded _ _ _ _ _ _ Tge Hi),
            ?(rd_voltage_error_raw i (Hlt i m Hi));
    reflexivity.
Qed.

End Preprocessing.

(** ** One PMT, then all of them *)

Section Channels.

Context {D : Type} `{DoubleOps D}.
Variable Fit : TGraphErrors D -> TF1 D -> TF1 D.
Variable chimney : string.

(** An iteration whose PMT has at most six records completes, and what it
    does depends on the input through these records only. *)
Lemma analyze_within (junk : stack_junk D) (input : list (token D)) (pmt_num : Z) :
  (count pmt_num input <= RAW_SIZE)%nat ->
  analyze Fit chimney junk input pmt_num
  = Done (channel_events Fit chimney input pmt_num).
Proof.
  intros Hcount. unfold analyze, channel_events, count, matching in *.
  rewrite read_loop_load.
  destruct (load_within pmt_num (records input) (fresh_buffers junk))
    as (b & -> & Hok & Hn & Tv & Tg & Tge).
  { apply fresh_buffers_ok. }
  { cbn. exact Hcount. }
  cbn [bind]. cbn in Hn, Tv, Tg, Tge.
  rewrite (preprocess_loaded b _ Hcount Hn Tv Tg Tge), Hn. reflexivity.
Qed.

(** An iteration whose PMT has more than six records stores past the end of
    the buffers. *)
Lemma analyze_overflow (junk : stack_junk D) (input : list (token D)) (pmt_num : Z) :
  (RAW_SIZE < count pmt_num input)%nat ->
  analyze Fit chimney junk input pmt_num = OutOfBounds RAW_SIZE.
Proof.
  intros Hcount. unfold analyze. rewrite read_loop_load, load_overflow.
  - reflexivity.
  - apply fresh_buffers_ok.
  - exact Hcount.
Qed.

Lemma analyze_each_within (junk : Z -> stack_junk D) (input : list (token D))
    (pmts : list Z) :
  (forall k, In k pmts -> (count k input <= RAW_SIZE)%nat) ->
  analyze_each Fit chimney junk input pmts
  = Done (flat_map (channel_events Fit chimney input) pmts).
Proof.
  induction pmts as [|k pmts IH]; intros Hall; [reflexivity|].
  cbn [analyze_each flat_map].
  rewrite analyze_within by (apply Hall; now left). cbn [bind].
  rewrite IH by (intros j Hj; apply Hall; now right). reflexivity.
Qed.

Lemma analyze_each_overflow (junk : Z -> stack_junk D) (input : list (token D))
    (pmts : list Z) (k : Z) :
  In k pmts -> (RAW_SIZE < count k input)%nat ->
  analyze_each Fit chimney junk input pmts = OutOfBounds RAW_SIZE.
Proof.
  induction pmts as [|j pmts IH]; intros Hin Hk; [destruct Hin|].
  cbn [analyze_each].
  destruct (le_lt_dec (count j input) RAW_SIZE) as [Hj | Hj].
  - rewrite analyze_within by exact Hj. cbn [bind].
    destruct Hin as [-> | Hin]; [lia|]. now rewrite IH.
  - now rewrite analyze_overflow.
Qed.

Lemma in_seqZ (m n k : Z) : In k (seqZ m n) <-> m <= k < m + n.
Proof. rewrite <- list_elem_of_In. apply elem_of_seqZ. Qed.

(** The run completes when no PMT has more than six records, and its trace
    is then the traces of the ten iterations one after the other. *)
Lemma GainVoltage_within (junk : Z -> stack_junk D) (input : list (token D)) :
  (forall k, 0 <= k < NPMT -> (count k input <= RAW_SIZE)%nat) ->
  GainVoltage Fit chimney junk input
  = Done (flat_map (channel_events Fit chimney input) (seqZ 0 NPMT)).
Proof.
  intros Hall. unfold GainVoltage. apply analyze_each_within.
  intros k Hk. apply Hall. apply in_seqZ in Hk. lia.
Qed.

Lemma GainVoltage_overflow (junk : Z -> stack_junk D) (input : list (token D)) (k : Z) :
  0 <= k < NPMT -> (RAW_SIZE < count k input)%nat ->
  GainVoltage Fit chimney junk input = OutOfBounds RAW_SIZE.
Proof.
  intros Hk Hover. unfold GainVoltage. apply analyze_each_overflow with k.
  - apply in_seqZ. lia.
  - exact Hover.
Qed.

(** A run that completes had no PMT with more than six records. *)
Lemma GainVoltage_Done_counts (junk : Z -> stack_junk D) (input : list (token D))
    (tr : list (event D)) :
  GainVoltage Fit chimney junk input = Done tr ->
  (forall k, 0 <= k < NPMT -> (count k input <= RAW_SIZE)%nat) /\
  tr = flat_map (channel_events Fit chimney input) (seqZ 0 NPMT).
Proof.
  intros Hrun.
  assert (Hall : forall k, 0 <= k < NPMT -> (count k input <= RAW_SIZE)%nat).
  { intros k Hk. destruct (le_lt_dec (count k input) RAW_SIZE) as [Hle | Hgt];
      [exact Hle|].
    rewrite (GainVoltage_overflow junk input k Hk Hgt) in Hrun. discriminate. }
  split; [exact Hall|].
  rewrite (GainVoltage_within junk input Hall) in Hrun. congruence.
Qed.

End Channels.

(** ** The trace of a run *)

Section Traces.

Context {D : Type} `{DoubleOps D}.
Variable Fit : TGraphErrors D -> TF1 D -> TF1 D.
Variable chimney : string.

Lemma valid_count_spec (n : nat) :
  valid_count n = negb (negb (n =? 3)%nat && negb (n =? 6)%nat).
Proof. unfold valid_count. destruct (n =? 3)%nat, (n =? 6)%nat; reflexivity. Qed.

Lemma valid_count_true (n : nat) : valid_count n = true <-> n = 3%nat \/ n = 6%nat.
Proof.
  unfold valid_count. rewrite orb_true_iff, !Nat.eqb_eq. reflexivity.
Qed.

Lemma valid_count_false (n : nat) :
  valid_count n = false <-> n <> 3%nat /\ n <> 6%nat.
Proof.
  unfold valid_count. rewrite orb_false_iff, !Nat.eqb_neq. reflexivity.
Qed.

(** The re-fit loop calls [Fit] once per pass, each time on the function
    the previous pass left. *)
Lemma refit_calls (passes : nat) (pmt : Z) (data : TGraphErrors D) :
  forall fit,
    snd (refit Fit passes pmt data fit)
    = map (FitCall pmt data)
          (pass_starts Fit passes data
             (SetParameters (par0 fit) (par1 fit) fit)).
Proof.
  induction passes as [|passes IH]; intros fit; [reflexivity|].
  cbn [refit pass_starts GetParameters fst snd].
  specialize (IH (Fit data (SetParameters (par0 fit) (par1 fit) fit))).
  destruct (refit Fit passes pmt data _) as [final calls].
  cbn [snd map] in *. now rewrite IH.
Qed.

(** The function the re-fit loop returns does not depend on the label. *)
Lemma refit_final (passes : nat) (pmt pmt' : Z) (data : TGraphErrors D) :
  forall fit,
    fst (refit Fit passes pmt data fit) = fst (refit Fit passes pmt' data fit).
Proof.
  induction passes as [|passes IH]; intros fit; [reflexivity|].
  cbn [refit GetParameters fst snd].
  specialize (IH (Fit data (SetParameters (par0 fit) (par1 fit) fit))).
  destruct (refit Fit passes pmt data _) as [final calls].
  destruct (refit Fit passes pmt' data _) as [final' calls'].
  exact IH.
Qed.

(** Seeding a function with its own parameters leaves it as it is. *)
Lemma SetParameters_own (f : TF1 D) : SetParameters (par0 f) (par1 f) f = f.
Proof. destruct f; reflexivity. Qed.

(** The ten calls of [Fit] for a PMT: the seeded function, then the fitted
    function of each pass. *)
Lemma fit_channel_calls (pmt : Z) (data : TGraphErrors D) :
  snd (fit_channel Fit pmt data)
  = map (FitCall pmt data)
        (pass_starts Fit 10 data
           (SetParameters (of_int (-30)) (of_int 7) (TF1_new fbegin fend))).
Proof.
  unfold fit_channel.
  pose proof (refit_calls 9 pmt data
                (Fit data (SetParameters (of_int (-30)) (of_int 7)
                                         (TF1_new fbegin fend)))) as Hc.
  destruct (refit Fit 9 pmt data _) as [final calls].
  cbn [snd] in *. rewrite Hc. reflexivity.
Qed.

Lemma fit_channel_final (pmt pmt' : Z) (data : TGraphErrors D) :
  fst (fit_channel Fit pmt data) = fst (fit_channel Fit pmt' data).
Proof.
  unfold fit_channel.
  pose proof (refit_final 9 pmt pmt' data
                (Fit data (SetParameters (of_int (-30)) (of_int 7)
                                         (TF1_new fbegin fend)))) as Hf.
  destruct (refit Fit 9 pmt data _) as [final calls].
  destruct (refit Fit 9 pmt' data _) as [final' calls'].
  exact Hf.
Qed.

Lemma pass_starts_length (n : nat) (data : TGraphErrors D) :
  forall start, length (pass_starts Fit n data start) = n.
Proof.
  induction n as [|n IH]; intros start; [reflexivity|].
  cbn [pass_starts length]. now rewrite IH.
Qed.

Lemma pass_starts_first (n : nat) (data : TGraphErrors D) (start s : TF1 D) :
  pass_starts Fit n data start !! 0%nat = Some s -> s = start.
Proof. destruct n; cbn; congruence. Qed.

(** Each pass starts from the parameters the previous pass fitted. *)
Lemma pass_starts_chain (n : nat) (data : TGraphErrors D) :
  forall start j s s',
    pass_starts Fit n data start !! j = Some s ->
    pass_starts Fit n data start !! S j = Some s' ->
    GetParameters s' = GetParameters (Fit data s).
Proof.
  induction n as [|n IH]; intros start j s s' Hs Hs'; [discriminate|].
  cbn [pass_starts] in Hs, Hs'. destruct j as [|j].
  - cbn in Hs. injection Hs as <-. cbn in Hs'.
    apply pass_starts_first in Hs'. subst s'. reflexivity.
  - cbn in Hs, Hs'. exact (IH _ j s s' Hs Hs').
Qed.

(** The function after the last pass: [Fit] applied once per pass. *)
Lemma refit_iter (passes : nat) (pmt : Z) (data : TGraphErrors D) :
  forall fit,
    fst (refit Fit passes pmt data fit) = Nat.iter passes (Fit data) fit.
Proof.
  induction passes as [|passes IH]; intros fit; [reflexivity|].
  cbn [refit GetParameters fst snd]. rewrite SetParameters_own.
  specialize (IH (Fit data fit)).
  destruct (refit Fit passes pmt data _) as [final calls].
  cbn [fst] in *. rewrite IH. symmetry. apply Nat.iter_succ_r.
Qed.

(** The function whose figures are reported is the result of the tenth
    pass from the seed. *)
Lemma fit_channel_iter (pmt : Z) (data : TGraphErrors D) :
  fst (fit_channel Fit pmt data)
  = Nat.iter 10 (Fit data)
      (SetParameters (of_int (-30)) (of_int 7) (TF1_new fbegin fend)).
Proof.
  unfold fit_channel.
  pose proof (refit_iter 9 pmt data
                (Fit data (SetParameters (of_int (-30)) (of_int 7)
                                         (TF1_new fbegin fend)))) as Hf.
  destruct (refit Fit 9 pmt data _) as [final calls].
  cbn [fst] in *. rewrite Hf. symmetry. apply (Nat.iter_succ_r 9).
Qed.

(** *** The two shapes of an iteration *)

Lemma fit_and_report_skip (pmt_num : Z) (n : nat) (a : channel_arrays D) :
  valid_count n = false ->
  fit_and_report Fit chimney pmt_num n a
  = [Cout (pmt_num + 1) (skip_message (pmt_num + 1))].
Proof.
  intros Hn. unfold fit_and_report. rewrite valid_count_spec in Hn.
  apply negb_false_iff in Hn. rewrite Hn. reflexivity.
Qed.

Lemma fit_and_report_fit (pmt_num : Z) (n : nat) (a : channel_arrays D) :
  valid_count n = true ->
  fit_and_report Fit chimney pmt_num n a
  = [Cout (pmt_num + 1) [IStr "Fitting "; IInt (pmt_num + 1); IEndl]]
    ++ snd (fit_channel Fit (pmt_num + 1) (graph_of n a))
    ++ (let fit := fst (fit_channel Fit (pmt_num + 1) (graph_of n a)) in
        [Fout (pmt_num + 1) placeholder_line;
         Fout (pmt_num + 1) placeholder_line;
         Fout (pmt_num + 1) (data_line (par0 fit) (par1 fit) fit);
         GainFunc (pmt_num + 1) (Exp (par0 fit)) (par1 fit);
         Print (pmt_num + 1) (outnamepdf chimney pmt_num)]).
Proof.
  intros Hn. unfold fit_and_report. rewrite valid_count_spec in Hn.
  apply negb_true_iff in Hn. rewrite Hn.
  destruct (fit_channel Fit (pmt_num + 1) (graph_of n a)) as [fit calls].
  reflexivity.
Qed.

(** Every event of an iteration carries the number of its PMT. *)
Lemma fit_and_report_label (pmt_num : Z) (n : nat) (a : channel_arrays D) :
  Forall (fun e => label e = pmt_num + 1) (fit_and_report Fit chimney pmt_num n a).
Proof.
  destruct (valid_count n) eqn:Hn.
  - rewrite fit_and_report_fit by exact Hn. rewrite fit_channel_calls.
    apply Forall_app. split; [repeat constructor|].
    apply Forall_app. split; [|repeat constructor].
    apply List.Forall_forall. intros e He. apply in_map_iff in He as (s & <- & _).
    reflexivity.
  - rewrite fit_and_report_skip by exact Hn. repeat constructor.
Qed.

Lemma events_of_all (k : Z) (tr : list (event D)) :
  Forall (fun e => label e = k) tr -> events_of k tr = tr.
Proof.
  induction 1 as [|e tr He _ IH]; [reflexivity|].
  unfold events_of in *. cbn [List.filter]. rewrite He, Z.eqb_refl. now f_equal.
Qed.

Lemma events_of_none (k j : Z) (tr : list (event D)) :
  j <> k -> Forall (fun e => label e = j) tr -> events_of k tr = [].
Proof.
  intros Hjk. induction 1 as [|e tr He _ IH]; [reflexivity|].
  unfold events_of in *. cbn [List.filter]. rewrite He.
  destruct (Z.eqb_spec j k); [contradiction | exact IH].
Qed.

Lemma events_of_app (k : Z) (tr tr' : list (event D)) :
  events_of k (tr ++ tr') = events_of k tr ++ events_of k tr'.
Proof. apply List.filter_app. Qed.

(** In the trace of a run the events of a PMT are those of its iteration. *)
Lemma events_of_iterations (F : Z -> list (event D)) (pmts : list Z) (k : Z) :
  (forall j, Forall (fun e => label e = j + 1) (F j)) ->
  List.NoDup pmts -> In k pmts ->
  events_of (k + 1) (flat_map F pmts) = F k.
Proof.
  intros HF. induction pmts as [|j pmts IH]; intros Hnd Hin; [destruct Hin|].
  inversion Hnd as [|? ? Hj Hnd']; subst.
  cbn [flat_map]. rewrite events_of_app.
  destruct (Z.eq_dec j k) as [-> | Hjk].
  - rewrite events_of_all by apply HF.
    assert (Hrest : events_of (k + 1) (flat_map F pmts) = []).
    { clear IH Hnd Hnd' Hin. induction pmts as [|i pmts IH']; [reflexivity|].
      cbn [flat_map]. rewrite events_of_app, IH'.
      - rewrite (events_of_none (k + 1) (i + 1)); [reflexivity | | apply HF].
        intros Heq. apply Hj. left. lia.
      - intros Hin. apply Hj. now right. }
    rewrite Hrest. apply app_nil_r.
  - rewrite (events_of_none (k + 1) (j + 1)); [| lia | apply HF].
    destruct Hin as [-> | Hin]; [contradiction|].
    now apply IH.
Qed.

Lemma NoDup_seqZ_list (m n : Z) : List.NoDup (seqZ m n).
Proof. apply NoDup_ListNoDup, NoDup_seqZ. Qed.

(** The events of one PMT in a run that completed. *)
Lemma events_of_run (junk : Z -> stack_junk D) (input : list (token D))
    (tr : list (event D)) (pmt_num : Z) :
  GainVoltage Fit chimney junk input = Done tr ->
  0 <= pmt_num < NPMT ->
  events_of (pmt_num + 1) tr = channel_events Fit chimney input pmt_num.
Proof.
  intros Hrun Hk. apply GainVoltage_Done_counts in Hrun as [_ ->].
  apply events_of_iterations.
  - intros j. apply fit_and_report_label.
  - apply NoDup_seqZ_list.
  - apply in_seqZ. lia.
Qed.

End Traces.

(** ** Examples in ideal arithmetic *)

Lemma Req_bool_IZR (a b : Z) : Req_bool (IZR a) (IZR b) = (a =? b).
Proof.
  unfold Req_bool. destruct (Req_dec_T (IZR a) (IZR b)) as [Heq | Hne].
  - apply eq_IZR in Heq. subst. symmetry. apply Z.eqb_refl.
  - destruct (Z.eqb_spec a b) as [-> | _]; [contradiction | reflexivity].
Qed.

Lemma matches_row (pmt_num k v : Z) : matches pmt_num (row k v) = (k =? pmt_num + 1).
Proof. unfold matches, row. cbn. apply Req_bool_IZR. Qed.

Lemma count_three_rows (pmt_num : Z) :
  count pmt_num (stream_of_records three_rows)
  = if pmt_num =? 0 then 3%nat else 0%nat.
Proof.
  unfold count, matching. rewrite records_stream_of_records.
  unfold three_rows. cbn [List.filter]. rewrite !matches_row.
  destruct (Z.eqb_spec pmt_num 0) as [-> | Hne]; [reflexivity|].
  destruct (Z.eqb_spec 1 (pmt_num + 1)); [lia | reflexivity].
Qed.

Lemma count_seven_rows (pmt_num : Z) :
  count pmt_num (stream_of_records seven_rows)
  = if pmt_num =? 0 then 7%nat else 0%nat.
Proof.
  unfold count, matching. rewrite records_stream_of_records.
  unfold seven_rows. cbn [List.filter]. rewrite !matches_row.
  destruct (Z.eqb_spec pmt_num 0) as [-> | Hne]; [reflexivity|].
  destruct (Z.eqb_spec 1 (pmt_num + 1)); [lia | reflexivity].
Qed.

Lemma three_rows_fit_buffers (pmt_num : Z) :
  0 <= pmt_num < NPMT ->
  (count pmt_num (stream_of_records three_rows) <= RAW_SIZE)%nat.
Proof.
  intros _. rewrite count_three_rows. unfold RAW_SIZE.
  destruct (pmt_num =? 0); lia.
Qed.

(** The scale [TMath::Power(10,7)] in ideal arithmetic. *)
Lemma ideal_gain_scale : @gain_scale R ideal_ops = 10000000%R.
Proof.
  unfold gain_scale. cbn [Power of_int ideal_ops].
  replace (IZR 7) with (INR 7) by (cbn; lra).
  rewrite Rpower_pow by lra. cbn. lra.
Qed.

(** ** The claims *)

Section Claims.

Context {D : Type} `{DoubleOps D}.
Variable Fit : TGraphErrors D -> TF1 D -> TF1 D.
Variable chimney : string.

(** What the reading loop leaves when it completes: the counter is the
    number of records of the PMT, and the arrays built from the buffers are
    the regression inputs of these records. *)
Lemma read_loop_Done (junk : stack_junk D) (input : list (token D)) (pmt_num : Z)
    (b : raw_buffers D) :
  read_loop pmt_num input (fresh_buffers junk) = Done b ->
  (count pmt_num input <= RAW_SIZE)%nat /\
  num_data_points b = count pmt_num input /\
  preprocess b = arrays_of (matching pmt_num input).
Proof.
  intros Hread. rewrite read_loop_load in Hread.
  unfold count, matching.
  destruct (le_lt_dec (length (List.filter (matches pmt_num) (records input)))
                      RAW_SIZE) as [Hle | Hgt].
  - destruct (load_within pmt_num (records input) (fresh_buffers junk))
      as (b' & Hload & Hok & Hn & Tv & Tg & Tge).
    { apply fresh_buffers_ok. }
    { cbn. exact Hle. }
    rewrite Hload in Hread. injection Hread as <-.
    cbn in Hn, Tv, Tg, Tge.
    split; [exact Hle|]. split; [exact Hn|].
    exact (preprocess_loaded b' _ Hle Hn Tv Tg Tge).
  - rewrite load_overflow in Hread; [discriminate | apply fresh_buffers_ok |].
    cbn. exact Hgt.
Qed.

(** A PMT whose number of records is neither three nor six, in a run that
    completes: its iteration prints the diagnostic and does nothing else. *)
Lemma skipped_events (junk : Z -> stack_junk D) (input : list (token D))
    (tr : list (event D)) (pmt_num : Z) :
  GainVoltage Fit chimney junk input = Done tr ->
  0 <= pmt_num < NPMT ->
  valid_count (count pmt_num input) = false ->
  events_of (pmt_num + 1) tr = [Cout (pmt_num + 1) (skip_message (pmt_num + 1))].
Proof.
  intros Hrun Hk Hskip. rewrite (events_of_run Fit chimney junk input tr pmt_num Hrun Hk).
  unfold channel_events. now apply fit_and_report_skip.
Qed.

(** What a fitted PMT does, in a run that completes. *)
Lemma fitted_events (junk : Z -> stack_junk D) (input : list (token D))
    (tr : list (event D)) (pmt_num : Z) :
  GainVoltage Fit chimney junk input = Done tr ->
  0 <= pmt_num < NPMT ->
  valid_count (count pmt_num input) = true ->
  let data := graph_of (count pmt_num input) (arrays_of (matching pmt_num input)) in
  let fit := fst (fit_channel Fit (pmt_num + 1) data) in
  events_of (pmt_num + 1) tr
  = [Cout (pmt_num + 1) [IStr "Fitting "; IInt (pmt_num + 1); IEndl]]
    ++ map (FitCall (pmt_num + 1) data)
           (pass_starts Fit 10 data
              (SetParameters (of_int (-30)) (of_int 7) (TF1_new fbegin fend)))
    ++ [Fout (pmt_num + 1) placeholder_line;
        Fout (pmt_num + 1) placeholder_line;
        Fout (pmt_num + 1) (data_line (par0 fit) (par1 fit) fit);
        GainFunc (pmt_num + 1) (Exp (par0 fit)) (par1 fit);
        Print (pmt_num + 1) (outnamepdf chimney pmt_num)].
Proof.
  intros Hrun Hk Hvalid data fit.
  rewrite (events_of_run Fit chimney junk input tr pmt_num Hrun Hk).
  unfold channel_events. rewrite fit_and_report_fit by exact Hvalid.
  rewrite fit_channel_calls. reflexivity.
Qed.

Lemma fit_calls_of_map (pmt : Z) (data : TGraphErrors D) (ss : list (TF1 D)) :
  flat_map (fun e : event D => match e with FitCall _ g f => [(g, f)] | _ => [] end)
           (map (FitCall pmt data) ss)
  = map (pair data) ss.
Proof. induction ss as [|s ss IH]; [reflexivity|]. cbn. now rewrite IH. Qed.

Lemma table_of_fit_calls (pmt : Z) (data : TGraphErrors D) (ss : list (TF1 D)) :
  table_of (map (FitCall pmt data) ss) = [].
Proof. induction ss as [|s ss IH]; [reflexivity|]. exact IH. Qed.

Lemma cout_of_fit_calls (pmt : Z) (data : TGraphErrors D) (ss : list (TF1 D)) :
  flat_map (fun e : event D => match e with Cout _ l => [l] | _ => [] end)
           (map (FitCall pmt data) ss)
  = [].
Proof. induction ss as [|s ss IH]; [reflexivity|]. exact IH. Qed.

(** C2: when no PMT overflows the buffers the run completes, and for a PMT
    with three or six records [Fit] is then called exactly ten times on the
    graph of its regression inputs: the first call with the parameters
    (-30, 7), every later call with the parameters the call before it
    fitted. *)
Theorem ten_passes_reseeded (junk : Z -> stack_junk D) (input : list (token D))
    (pmt_num : Z) :
  within_capacity input ->
  0 <= pmt_num < NPMT ->
  valid_count (count pmt_num input) = true ->
  let data := graph_of (count pmt_num input) (arrays_of (matching pmt_num input)) in
  exists (tr : list (event D)) (starts : list (TF1 D)),
    GainVoltage Fit chimney junk input = Done tr /\
    fits_of (pmt_num + 1) tr = map (pair data) starts /\
    length starts = 10%nat /\
    (forall s, starts !! 0%nat = Some s ->
               GetParameters s = (of_int (-30), of_int 7)) /\
    (forall j s s', starts !! j = Some s -> starts !! S j = Some s' ->
                    GetParameters s' = GetParameters (Fit data s)).
Proof.
  intros Hcap Hk Hvalid data.
  pose proof (GainVoltage_within Fit chimney junk input Hcap) as Hrun.
  eexists.
  exists (pass_starts Fit 10 data
            (SetParameters (of_int (-30)) (of_int 7) (TF1_new fbegin fend))).
  split; [exact Hrun|]. split; [|split; [|split]].
  - unfold fits_of. rewrite (fitted_events junk input _ pmt_num Hrun Hk Hvalid).
    fold data. rewrite !flat_map_app, fit_calls_of_map. cbn [flat_map app].
    apply app_nil_r.
  - apply pass_starts_length.
  - intros s Hs. apply pass_starts_first in Hs. subst s. reflexivity.
  - apply pass_starts_chain.
Qed.

(** C3: the loading of a PMT with at most six records completes, and for
    its [i]-th record the arrays of the regression then hold: the logarithm
    of the voltage; the logarithm of the gain times [10^7]; the gain error
    times [10^7] over the gain times [10^7]; the voltage error 2 over the
    voltage; and, for the linear plot, gain and gain error times [10^7]. *)
Theorem regression_inputs (junk : stack_junk D) (input : list (token D))
    (pmt_num : Z) (i : nat) (m : measurement D) :
  (count pmt_num input <= RAW_SIZE)%nat ->
  matching pmt_num input !! i = Some m ->
  let scale := Power (of_int 10) (of_int 7) in
  exists b : raw_buffers D,
    read_loop pmt_num input (fresh_buffers junk) = Done b /\
    num_data_points b = count pmt_num input /\
    voltage (preprocess b) !! i = Some (Log (m_voltage m)) /\
    gain (preprocess b) !! i = Some (Log (dmul (m_gain m) scale)) /\
    gain_error (preprocess b) !! i
    = Some (ddiv (dmul (m_gain_error m) scale) (dmul (m_gain m) scale)) /\
    voltage_error (preprocess b) !! i = Some (ddiv (of_int 2) (m_voltage m)) /\
    gain_nolog (preprocess b) !! i = Some (dmul (m_gain m) scale) /\
    gain_error_nolog (preprocess b) !! i = Some (dmul (m_gain_error m) scale).
Proof.
  intros Hcap Hi scale.
  destruct (load_within pmt_num (records input) (fresh_buffers junk))
    as (b & Hload & _ & Hn & _).
  { apply fresh_buffers_ok. }
  { exact Hcap. }
  exists b. rewrite read_loop_load. split; [exact Hload|].
  split; [exact Hn|].
  rewrite <- read_loop_load in Hload.
  destruct (read_loop_Done junk input pmt_num b Hload) as (_ & _ & ->).
  unfold arrays_of; cbn [voltage gain gain_error voltage_error gain_nolog
                         gain_error_nolog].
  repeat split;
    exact (map_lookup_Some _ _ _ _ Hi).
Qed.

End Claims.

(** ** The fit table *)

Section Table.

Context {D : Type} `{DoubleOps D}.
Variable Fit : TGraphErrors D -> TF1 D -> TF1 D.
Variable chimney : string.

Lemma table_of_app (tr tr' : list (event D)) :
  table_of (tr ++ tr') = table_of tr ++ table_of tr'.
Proof. apply flat_map_app. Qed.

Lemma table_of_flat_map (F : Z -> list (event D)) (pmts : list Z) :
  table_of (flat_map F pmts) = flat_map (fun k => table_of (F k)) pmts.
Proof.
  induction pmts as [|k pmts IH]; [reflexivity|].
  cbn [flat_map]. now rewrite table_of_app, IH.
Qed.

(** The block of one PMT: nothing when it is skipped, two placeholder lines
    and the data line when it is fitted. *)
Lemma table_of_channel (input : list (token D)) (pmt_num : Z) :
  table_of (channel_events Fit chimney input pmt_num)
  = if valid_count (count pmt_num input) then
      let data := graph_of (count pmt_num input)
                           (arrays_of (matching pmt_num input)) in
      let fit := fst (fit_channel Fit (pmt_num + 1) data) in
      [(pmt_num + 1, placeholder_line);
       (pmt_num + 1, placeholder_line);
       (pmt_num + 1, data_line (par0 fit) (par1 fit) fit)]
    else [].
Proof.
  unfold channel_events. destruct (valid_count (count pmt_num input)) eqn:Hv.
  - rewrite fit_and_report_fit by exact Hv. rewrite fit_channel_calls.
    rewrite !table_of_app, table_of_fit_calls. reflexivity.
  - rewrite fit_and_report_skip by exact Hv. reflexivity.
Qed.

Lemma flat_map_shift {A : Type} (P : Z -> bool) (G : Z -> list A) (l : list Z) :
  flat_map (fun j => if P j then G (j + 1) else []) l
  = flat_map G (List.filter (fun k => P (k - 1)) (map (fun j => j + 1) l)).
Proof.
  induction l as [|j l IH]; [reflexivity|].
  cbn [flat_map map List.filter]. rewrite Z.add_simpl_r.
  destruct (P j); cbn [flat_map]; now rewrite IH.
Qed.

(** The PMT numbers of the lines of the text file: three for each fitted
    PMT, in the order of the loop. *)
Lemma table_labels (junk : Z -> stack_junk D) (input : list (token D))
    (tr : list (event D)) :
  GainVoltage Fit chimney junk input = Done tr ->
  map fst (table_of tr) = flat_map (fun k => [k; k; k]) (fitted_channels input).
Proof.
  intros Hrun. apply GainVoltage_Done_counts in Hrun as [_ ->].
  rewrite table_of_flat_map. unfold fitted_channels.
  change (seqZ 1 NPMT) with (map (fun j => j + 1) (seqZ 0 NPMT)).
  rewrite <- (flat_map_shift (fun j => valid_count (count j input))
                             (fun k => [k; k; k])).
  induction (seqZ 0 NPMT) as [|j l IH]; [reflexivity|].
  cbn [flat_map]. rewrite map_app, IH, table_of_channel.
  destruct (valid_count (count j input)); reflexivity.
Qed.

Lemma fitted_channels_sorted (input : list (token D)) :
  StronglySorted Z.lt (fitted_channels input).
Proof.
  unfold fitted_channels.
  assert (Hs : StronglySorted Z.lt (seqZ 1 NPMT)).
  { change (seqZ 1 NPMT) with [1; 2; 3; 4; 5; 6; 7; 8; 9; 10].
    repeat (constructor; [| repeat (constructor; try lia)]). constructor. }
  induction Hs as [|k l Hs IH Hk]; [constructor|].
  cbn [List.filter]. destruct (valid_count (count (k - 1) input)); [|exact IH].
  constructor; [exact IH|].
  apply List.Forall_forall. intros j Hj. apply filter_In in Hj as [Hj _].
  rewrite List.Forall_forall in Hk. now apply Hk.
Qed.

Lemma fitted_channels_range (input : list (token D)) (k : Z) :
  In k (fitted_channels input) <->
  1 <= k <= NPMT /\ valid_count (count (k - 1) input) = true.
Proof.
  unfold fitted_channels. rewrite filter_In, in_seqZ. unfold NPMT. intuition lia.
Qed.

(** When no PMT is skipped the blocks are those of PMT 1 to PMT 10. *)
Lemma fitted_channels_all (input : list (token D)) :
  (forall k, 1 <= k <= NPMT -> valid_count (count (k - 1) input) = true) ->
  fitted_channels input = seqZ 1 NPMT.
Proof.
  intros Hall. unfold fitted_channels.
  assert (Hin : forall k, In k (seqZ 1 NPMT) -> 1 <= k <= NPMT).
  { intros k Hk. apply in_seqZ in Hk. unfold NPMT in *. lia. }
  induction (seqZ 1 NPMT) as [|k l IH]; [reflexivity|].
  cbn [List.filter]. rewrite Hall by (apply Hin; now left).
  f_equal. apply IH. intros j Hj. apply Hin. now right.
Qed.

(** The number of records of a PMT does not depend on the order of the
    records. *)
Lemma filter_length_Permutation {A : Type} (f : A -> bool) (l l' : list A) :
  Permutation l l' -> length (List.filter f l) = length (List.filter f l').
Proof.
  induction 1 as [| x l l' _ IH | x y l | l l' l'' _ IH1 _ IH2].
  - reflexivity.
  - cbn. destruct (f x); cbn; now rewrite IH.
  - cbn. destruct (f x), (f y); reflexivity.
  - now rewrite IH1.
Qed.

Lemma count_Permutation (input : list (token D)) (ms' : list (measurement D))
    (pmt_num : Z) :
  Permutation (records input) ms' ->
  count pmt_num (stream_of_records ms') = count pmt_num input.
Proof.
  intros Hp. unfold count, matching. rewrite records_stream_of_records.
  symmetry. now apply filter_length_Permutation.
Qed.

Lemma fitted_channels_Permutation (input : list (token D))
    (ms' : list (measurement D)) :
  Permutation (records input) ms' ->
  fitted_channels (stream_of_records ms') = fitted_channels input.
Proof.
  intros Hp. unfold fitted_channels.
  induction (seqZ 1 NPMT) as [|k l IH]; [reflexivity|].
  cbn [List.filter]. rewrite (count_Permutation input ms' (k - 1) Hp), IH.
  reflexivity.
Qed.

(** The run sees the input through its records only. *)
Lemma analyze_records (junk junk' : stack_junk D) (input input' : list (token D))
    (pmt_num : Z) :
  records input = records input' ->
  analyze Fit chimney junk input pmt_num = analyze Fit chimney junk' input' pmt_num.
Proof.
  intros Hrec.
  destruct (le_lt_dec (count pmt_num input) RAW_SIZE) as [Hle | Hgt].
  - rewrite (analyze_within Fit chimney junk input pmt_num Hle).
    rewrite analyze_within.
    + unfold channel_events, count, matching. now rewrite Hrec.
    + unfold count, matching in *. now rewrite <- Hrec.
  - rewrite (analyze_overflow Fit chimney junk input pmt_num Hgt).
    rewrite analyze_overflow; [reflexivity|].
    unfold count, matching in *. now rewrite <- Hrec.
Qed.

Lemma GainVoltage_records (junk junk' : Z -> stack_junk D)
    (input input' : list (token D)) :
  records input = records input' ->
  GainVoltage Fit chimney junk input = GainVoltage Fit chimney junk' input'.
Proof.
  intros Hrec. unfold GainVoltage.
  induction (seqZ 0 NPMT) as [|k l IH]; [reflexivity|].
  cbn [analyze_each].
  now rewrite (analyze_records (junk k) (junk' k) input input' k Hrec), IH.
Qed.

End Table.

Section Reports.

Context {D : Type} `{DoubleOps D}.
Variable Fit : TGraphErrors D -> TF1 D -> TF1 D.
Variable chimney : string.

Lemma blocks_length (ks : list Z) :
  length (flat_map (fun k => [k; k; k]) ks) = (3 * length ks)%nat.
Proof. induction ks as [|k ks IH]; [reflexivity|]. cbn [flat_map length app]. lia. Qed.

(** The characters of a placeholder line, whatever the format of numbers. *)
Lemma render_placeholder_line (show : D -> string) :
  render show placeholder_line
  = "--,--,--,--,--,--,--" +:+ String (Ascii.ascii_of_nat 10) EmptyString.
Proof. reflexivity. Qed.

(** C4 (amended): when no PMT overflows the buffers the run completes, and
    a skipped PMT then writes no line at all to the text file, neither
    placeholder lines nor a data line; it prints its diagnostic on the
    console.  The text file holds three lines for each fitted PMT and
    nothing else. *)
Theorem skipped_channel_writes_no_line (junk : Z -> stack_junk D)
    (input : list (token D)) (pmt_num : Z) :
  within_capacity input ->
  0 <= pmt_num < NPMT ->
  valid_count (count pmt_num input) = false ->
  exists tr : list (event D),
    GainVoltage Fit chimney junk input = Done tr /\
    lines_of (pmt_num + 1) tr = [] /\
    diagnostics_of (pmt_num + 1) tr = [skip_message (pmt_num + 1)] /\
    length (fit_table tr) = (3 * length (fitted_channels input))%nat.
Proof.
  intros Hcap Hk Hskip.
  pose proof (GainVoltage_within Fit chimney junk input Hcap) as Hrun.
  eexists. split; [exact Hrun|].
  unfold lines_of, diagnostics_of.
  rewrite (skipped_events Fit chimney junk input _ pmt_num Hrun Hk Hskip).
  repeat split.
  unfold fit_table. rewrite length_map, <- (length_map fst).
  rewrite (table_labels Fit chimney junk input _ Hrun). apply blocks_length.
Qed.

(** C5 (amended): a field that is not a number ends the reading, silently
    and without a fault of its own: the records completed before it are the
    records read, the numbers of the record it interrupts and everything
    after it are lost, and the run is the run on the records before it. *)
Theorem reading_stops_at_bad_field (junk : Z -> stack_junk D)
    (ms : list (measurement D)) (xs : list D) (s : string)
    (rest : list (token D)) :
  (length xs < 4)%nat ->
  let input := stream_of_records ms ++ map Num xs ++ Junk s :: rest in
  records input = ms /\
  GainVoltage Fit chimney junk input
  = GainVoltage Fit chimney junk (stream_of_records ms).
Proof.
  intros Hlen input.
  assert (Hrec : records input = ms).
  { unfold input. rewrite records_app, records_stop; eauto using app_nil_r. }
  split; [exact Hrec|].
  apply GainVoltage_records. now rewrite records_stream_of_records.
Qed.

(** X5: a record cut short by the end of the file, one to three numbers
    after the last complete record, is dropped without a fault: the run is
    the run on the complete records. *)
Lemma incomplete_last_record_dropped (junk : Z -> stack_junk D)
    (ms : list (measurement D)) (xs : list D) :
  (length xs < 4)%nat ->
  GainVoltage Fit chimney junk (stream_of_records ms ++ map Num xs)
  = GainVoltage Fit chimney junk (stream_of_records ms).
Proof.
  intros Hlen. apply GainVoltage_records.
  rewrite <- (app_nil_r (map Num xs)), records_app, records_stop by auto.
  now rewrite records_stream_of_records, app_nil_r.
Qed.

(** C6 (amended): when no PMT overflows the buffers the run completes, and
    the lines of the text file come in blocks of three, one block for each
    fitted PMT and none for a skipped PMT, in strictly increasing order of
    PMT numbers within 1 to [NPMT]; the blocks are those of all of 1 to
    [NPMT] only when no PMT is skipped.  The blocks of the same PMTs, in the
    same order, come out of a run on the records of the input in any other
    order. *)
Theorem blocks_in_channel_order (junk junk' : Z -> stack_junk D)
    (input : list (token D)) (ms' : list (measurement D)) :
  within_capacity input ->
  Permutation (records input) ms' ->
  exists (tr tr' : list (event D)) (ks : list Z),
    GainVoltage Fit chimney junk input = Done tr /\
    GainVoltage Fit chimney junk' (stream_of_records ms') = Done tr' /\
    map fst (table_of tr) = flat_map (fun k => [k; k; k]) ks /\
    map fst (table_of tr') = flat_map (fun k => [k; k; k]) ks /\
    StronglySorted Z.lt ks /\
    (forall k, In k ks <-> 1 <= k <= NPMT /\ valid_count (count (k - 1) input) = true) /\
    ((forall k, 1 <= k <= NPMT -> valid_count (count (k - 1) input) = true) ->
     ks = seqZ 1 NPMT).
Proof.
  intros Hcap Hperm.
  pose proof (GainVoltage_within Fit chimney junk input Hcap) as Hrun.
  assert (Hrun' : GainVoltage Fit chimney junk' (stream_of_records ms')
                  = Done (flat_map (channel_events Fit chimney (stream_of_records ms'))
                                   (seqZ 0 NPMT))).
  { apply GainVoltage_within. intros k Hk.
    rewrite (count_Permutation input ms' k Hperm). now apply Hcap. }
  eexists. eexists. exists (fitted_channels input).
  split; [exact Hrun|]. split; [exact Hrun'|].
  split; [exact (table_labels Fit chimney junk input _ Hrun)|].
  split.
  { rewrite (table_labels Fit chimney junk' _ _ Hrun').
    now rewrite (fitted_channels_Permutation input ms' Hperm). }
  split; [apply fitted_channels_sorted|].
  split; [apply fitted_channels_range | apply fitted_channels_all].
Qed.

(** C7: when no PMT overflows the buffers the run completes, and a fitted
    PMT then writes exactly three lines: two placeholder lines, each of
    seven fields ["--"], and a data line of seven fields: constant, its
    error, exponent, its error, chi-square, degrees of freedom and
    probability of the function after the tenth pass.  With a [Fit] that
    reports as degrees of freedom the number of points less the number of
    parameters, the sixth field is [N - 2] for [N] records. *)
Theorem fitted_channel_block (junk : Z -> stack_junk D) (input : list (token D))
    (pmt_num : Z) :
  within_capacity input ->
  0 <= pmt_num < NPMT ->
  valid_count (count pmt_num input) = true ->
  (forall g f, ndf (Fit g f) = Z.of_nat (npoints g) - NPAR) ->
  let data := graph_of (count pmt_num input) (arrays_of (matching pmt_num input)) in
  let fit :=
    Nat.iter 10 (Fit data)
             (SetParameters (of_int (-30)) (of_int 7) (TF1_new fbegin fend)) in
  exists tr : list (event D),
    GainVoltage Fit chimney junk input = Done tr /\
    lines_of (pmt_num + 1) tr
    = [placeholder_line; placeholder_line; data_line (par0 fit) (par1 fit) fit] /\
    fields (@placeholder_line D) = replicate 7 [IStr "--"] /\
    (forall show : D -> string,
       render show placeholder_line
       = "--,--,--,--,--,--,--" +:+ String (Ascii.ascii_of_nat 10) EmptyString) /\
    fields (data_line (par0 fit) (par1 fit) fit)
    = [[IDbl (par0 fit)]; [IDbl (parerr0 fit)]; [IDbl (par1 fit)];
       [IDbl (parerr1 fit)]; [IDbl (chisquare fit)];
       [IInt (Z.of_nat (count pmt_num input) - 2)]; [IDbl (prob fit)]].
Proof.
  intros Hcap Hk Hvalid Hndf data fit.
  pose proof (GainVoltage_within Fit chimney junk input Hcap) as Hrun.
  eexists. split; [exact Hrun|].
  split; [|split; [|split]].
  - unfold lines_of.
    rewrite (fitted_events Fit chimney junk input _ pmt_num Hrun Hk Hvalid).
    fold data. rewrite (fit_channel_iter Fit (pmt_num + 1) data). fold fit.
    unfold fit_table. rewrite !table_of_app, table_of_fit_calls. reflexivity.
  - reflexivity.
  - apply render_placeholder_line.
  - assert (Hfit : ndf fit = Z.of_nat (count pmt_num input) - 2).
    { unfold fit. rewrite Nat.iter_succ, Hndf. reflexivity. }
    unfold data_line. rewrite Hfit. reflexivity.
Qed.

(** C9: the outcome of a run, and with it the text file, is determined by
    the input (and by [Fit] and the file name): it does not depend on what
    the uninitialised buffers hold. *)
Theorem run_determined_by_input (junk junk' : Z -> stack_junk D)
    (input : list (token D)) :
  GainVoltage Fit chimney junk input = GainVoltage Fit chimney junk' input /\
  written_table (GainVoltage Fit chimney junk input)
  = written_table (GainVoltage Fit chimney junk' input).
Proof.
  assert (Hsame : GainVoltage Fit chimney junk input
                  = GainVoltage Fit chimney junk' input)
    by now apply GainVoltage_records.
  split; [exact Hsame | now rewrite Hsame].
Qed.

(** C10: the loading stays within the buffers of six cells when no PMT has
    more than six records, and the run then completes; the loading for a PMT
    with more than six records stores at index 6, past the last cell, before
    any test of the number of records, and so does the run. *)
Theorem buffers_hold_six_records (junk : Z -> stack_junk D)
    (input : list (token D)) :
  (within_capacity input ->
   (exists tr, GainVoltage Fit chimney junk input = Done tr) /\
   (forall k, 0 <= k < NPMT ->
      exists b, read_loop k input (fresh_buffers (junk k)) = Done b /\
                num_data_points b = count k input)) /\
  (forall k, 0 <= k < NPMT -> (RAW_SIZE < count k input)%nat ->
     read_loop k input (fresh_buffers (junk k)) = OutOfBounds RAW_SIZE /\
     GainVoltage Fit chimney junk input = OutOfBounds RAW_SIZE).
Proof.
  split.
  - intros Hcap. split.
    + eexists. now apply GainVoltage_within.
    + intros k Hk. specialize (Hcap k Hk).
      destruct (load_within k (records input) (fresh_buffers (junk k)))
        as (b & Hload & _ & Hn & _).
      { apply fresh_buffers_ok. }
      { exact Hcap. }
      exists b. rewrite read_loop_load. split; [exact Hload | exact Hn].
  - intros k Hk Hover. split.
    + rewrite read_loop_load. apply load_overflow; [apply fresh_buffers_ok | exact Hover].
    + now apply GainVoltage_overflow with k.
Qed.

End Reports.

(** ** The claims on examples *)

Lemma three_rows_run :
  GainVoltage least_squares "EE01" zero_junk (stream_of_records three_rows)
  = Done (flat_map (channel_events least_squares "EE01"
                      (stream_of_records three_rows))
                   (seqZ 0 NPMT)).
Proof. apply GainVoltage_within, three_rows_fit_buffers. Qed.

Lemma matching_three_rows :
  matching 0 (stream_of_records three_rows) = three_rows.
Proof.
  unfold matching. rewrite records_stream_of_records.
  unfold three_rows. cbn [List.filter]. rewrite !matches_row. reflexivity.
Qed.

Lemma empty_file_run :
  GainVoltage least_squares "EE01" zero_junk []
  = Done (flat_map (channel_events least_squares "EE01" []) (seqZ 0 NPMT)).
Proof. apply GainVoltage_within. intros k _. cbn. unfold RAW_SIZE. lia. Qed.

(** The run on an empty file: ten diagnostics and nothing else. *)
Example empty_file_trace :
  GainVoltage least_squares "EE01" zero_junk []
  = Done (map (fun k => Cout k (skip_message k)) (seqZ 1 NPMT)).
Proof. reflexivity. Qed.

Example outnamepdf_first : outnamepdf "EE01" 0 = "EE01_1_gainvsvoltage.pdf".
Proof. reflexivity. Qed.

(** The run on three records of PMT 1: sixteen events for PMT 1 (a console
    line, ten calls of [Fit], three lines of the table, the curve and the
    plot), one diagnostic for each other PMT. *)
Example three_rows_trace_sizes :
  exists tr : list (event R),
    GainVoltage least_squares "EE01" zero_junk (stream_of_records three_rows)
    = Done tr /\
    length (events_of 1 tr) = 16%nat /\
    events_of 2 tr = [Cout 2 (skip_message 2)] /\
    length (fit_table tr) = 3%nat.
Proof.
  eexists. split; [exact three_rows_run|].
  pose proof (fitted_events least_squares "EE01" zero_junk _ _ 0 three_rows_run)
    as H1.
  pose proof (skipped_events least_squares "EE01" zero_junk _ _ 1 three_rows_run)
    as H2.
  change (0 + 1) with 1 in H1. change (1 + 1) with 2 in H2.
  rewrite H1, H2; try (unfold NPMT; lia); try (rewrite count_three_rows; reflexivity).
  split; [reflexivity|]. split; [reflexivity|].
  unfold fit_table. rewrite length_map, <- (length_map fst).
  rewrite (table_labels least_squares "EE01" zero_junk _ _ three_rows_run).
  rewrite blocks_length. unfold fitted_channels.
  change (seqZ 1 NPMT) with [1; 2; 3; 4; 5; 6; 7; 8; 9; 10].
  cbn [List.filter]. cbn [Z.sub Z.add Z.pos_sub Z.opp Z.succ_double Z.pred_double Z.double Pos.pred_double].
  rewrite !count_three_rows. reflexivity.
Qed.

(** C1: a file with seven records of PMT 1.  Seven is neither three nor
    six, so the PMT is to be skipped with a diagnostic and the run is to go
    on; but the seventh record is stored at index 6 of buffers of six cells
    before the number of records is tested: the loading of PMT 1, and with
    it the run, goes out of bounds, whatever [Fit] and the memory are. *)
Theorem seventh_record_out_of_bounds (Fit : TGraphErrors R -> TF1 R -> TF1 R)
    (chimney : string) (junk : Z -> stack_junk R) :
  count 0 (stream_of_records seven_rows) = 7%nat /\
  valid_count 7 = false /\
  read_loop 0 (stream_of_records seven_rows) (fresh_buffers (junk 0))
  = OutOfBounds RAW_SIZE /\
  GainVoltage Fit chimney junk (stream_of_records seven_rows)
  = OutOfBounds RAW_SIZE.
Proof.
  assert (H7 : count 0 (stream_of_records seven_rows) = 7%nat)
    by (rewrite count_seven_rows; reflexivity).
  split; [exact H7|]. split; [reflexivity|]. split.
  - rewrite read_loop_load. apply load_overflow; [apply fresh_buffers_ok|].
    fold (matching 0 (stream_of_records seven_rows)).
    fold (count 0 (stream_of_records seven_rows)).
    rewrite H7. unfold RAW_SIZE. cbn. lia.
  - apply GainVoltage_overflow with 0; [unfold NPMT; lia|].
    rewrite H7. unfold RAW_SIZE. lia.
Qed.

Lemma ten_passes_reseeded_witness :
  exists (tr : list (event R)) (starts : list (TF1 R)),
    GainVoltage least_squares "EE01" zero_junk (stream_of_records three_rows)
    = Done tr /\
    length (fits_of 1 tr) = 10%nat /\
    map snd (fits_of 1 tr) = starts /\
    (forall s, starts !! 0%nat = Some s -> GetParameters s = (IZR (-30), IZR 7)).
Proof.
  destruct (ten_passes_reseeded least_squares "EE01" zero_junk
              (stream_of_records three_rows) 0)
    as (tr & starts & Hrun & Hfits & Hlen & Hfirst & _).
  - exact three_rows_fit_buffers.
  - unfold NPMT. lia.
  - rewrite count_three_rows. reflexivity.
  - exists tr, starts. split; [exact Hrun|].
    change (0 + 1) with 1 in Hfits. rewrite Hfits. split; [|split].
    + now rewrite length_map.
    + rewrite map_map. cbn [snd]. apply map_id.
    + exact Hfirst.
Defined.

Lemma regression_inputs_witness :
  exists b : raw_buffers R,
    read_loop 0 (stream_of_records three_rows) (fresh_buffers (zero_junk 0))
    = Done b /\
    voltage (preprocess b) !! 0%nat = Some (ln 1000) /\
    voltage_error (preprocess b) !! 0%nat = Some (2 / 1000)%R.
Proof.
  destruct (regression_inputs (zero_junk 0) (stream_of_records three_rows) 0
              0%nat (row 1 1000))
    as (b & Hb & _ & Hv & _ & _ & Hve & _).
  - apply three_rows_fit_buffers. unfold NPMT. lia.
  - rewrite matching_three_rows. reflexivity.
  - exists b. split; [exact Hb|]. split; [exact Hv | exact Hve].
Defined.

(** C4 (as stated, refuted): on an empty file PMT 1 has no record and is
    skipped, and the run writes no placeholder line for it; the text file is
    left without any line. *)
Lemma skipped_channel_has_no_placeholder_lines :
  exists tr : list (event R),
    GainVoltage least_squares "EE01" zero_junk [] = Done tr /\
    valid_count (count 0 ([] : list (token R))) = false /\
    lines_of 1 tr <> [placeholder_line; placeholder_line] /\
    fit_table tr = [].
Proof.
  eexists. split; [exact empty_file_run|]. split; [reflexivity|].
  split; [|reflexivity].
  pose proof (skipped_events least_squares "EE01" zero_junk [] _ 0 empty_file_run)
    as Hev.
  change (0 + 1) with 1 in Hev. unfold lines_of.
  rewrite Hev; [discriminate | unfold NPMT; lia | reflexivity].
Qed.

Lemma skipped_channel_writes_no_line_witness :
  exists tr : list (event R),
    GainVoltage least_squares "EE01" zero_junk (stream_of_records three_rows)
    = Done tr /\
    lines_of 2 tr = [] /\
    diagnostics_of 2 tr = [skip_message 2].
Proof.
  destruct (skipped_channel_writes_no_line least_squares "EE01" zero_junk
              (stream_of_records three_rows) 1)
    as (tr & Hrun & Hlines & Hdiag & _).
  - exact three_rows_fit_buffers.
  - unfold NPMT. lia.
  - rewrite count_three_rows. reflexivity.
  - exists tr. split; [exact Hrun|]. split; [exact Hlines | exact Hdiag].
Defined.

(** C5 (as stated, refuted): a heading line before three well-formed
    records.  The first field of the heading ends the reading: none of the
    records is loaded, every PMT is skipped, and the run is the run on an
    empty file. *)
Lemma heading_line_loses_every_record :
  In (fields_of (row 1 1000)) headed_file /\
  records (stream_of headed_file) = [] /\
  ~ In (row 1 1000) (records (stream_of headed_file)) /\
  GainVoltage least_squares "EE01" zero_junk (stream_of headed_file)
  = GainVoltage least_squares "EE01" zero_junk [].
Proof.
  split; [right; left; reflexivity|].
  split; [reflexivity|].
  split; [intros []|].
  now apply GainVoltage_records.
Qed.

Lemma reading_stops_at_bad_field_witness :
  records (stream_of_records three_rows
           ++ map Num [IZR 2; IZR 1000] ++ Junk "n/a" :: fields_of (row 2 1500))
  = three_rows /\
  GainVoltage least_squares "EE01" zero_junk
    (stream_of_records three_rows
     ++ map Num [IZR 2; IZR 1000] ++ Junk "n/a" :: fields_of (row 2 1500))
  = GainVoltage least_squares "EE01" zero_junk (stream_of_records three_rows).
Proof.
  apply (reading_stops_at_bad_field least_squares "EE01" zero_junk three_rows
           [IZR 2; IZR 1000] "n/a" (fields_of (row 2 1500))).
  cbn. lia.
Defined.

Lemma count_pmt2_rows (pmt_num : Z) :
  count pmt_num (stream_of_records pmt2_rows)
  = if pmt_num =? 1 then 3%nat else 0%nat.
Proof.
  unfold count, matching. rewrite records_stream_of_records.
  unfold pmt2_rows. cbn [List.filter]. rewrite !matches_row.
  destruct (Z.eqb_spec pmt_num 1) as [-> | Hne]; [reflexivity|].
  destruct (Z.eqb_spec 2 (pmt_num + 1)); [lia | reflexivity].
Qed.

Lemma count_two_pmt_rows (ms : list (measurement R)) (pmt_num : Z) :
  Permutation two_pmt_rows ms ->
  count pmt_num (stream_of_records ms)
  = if pmt_num =? 0 then 3%nat else if pmt_num =? 2 then 3%nat else 0%nat.
Proof.
  intros Hp. unfold count, matching. rewrite records_stream_of_records.
  rewrite <- (filter_length_Permutation (matches pmt_num) _ _ Hp).
  unfold two_pmt_rows. cbn [List.filter]. rewrite !matches_row.
  destruct (Z.eqb_spec pmt_num 0) as [-> | H0]; [reflexivity|].
  destruct (Z.eqb_spec pmt_num 2) as [-> | H2]; [reflexivity|].
  destruct (Z.eqb_spec 1 (pmt_num + 1)); [lia|].
  destruct (Z.eqb_spec 3 (pmt_num + 1)); [lia | reflexivity].
Qed.

Lemma fitted_channels_two_pmt_rows :
  fitted_channels (stream_of_records two_pmt_rows) = [1; 3].
Proof.
  unfold fitted_channels.
  change (seqZ 1 NPMT) with [1; 2; 3; 4; 5; 6; 7; 8; 9; 10].
  cbn [List.filter].
  rewrite !(count_two_pmt_rows two_pmt_rows) by reflexivity. reflexivity.
Qed.

(** C6 (as stated, refuted): a file with three records of PMT 2 and none of
    any other PMT.  The run completes and the text file holds one block of
    three lines, that of PMT 2: the blocks do not run from PMT 1 to PMT
    [NPMT], and the first block of the file is not that of PMT 1. *)
Lemma only_block_is_of_second_pmt :
  exists tr : list (event R),
    GainVoltage least_squares "EE01" zero_junk (stream_of_records pmt2_rows)
    = Done tr /\
    map fst (table_of tr) = [2; 2; 2] /\
    map fst (table_of tr) <> flat_map (fun k => [k; k; k]) (seqZ 1 NPMT).
Proof.
  assert (Hcap : within_capacity (stream_of_records pmt2_rows)).
  { intros k _. rewrite count_pmt2_rows. unfold RAW_SIZE.
    destruct (k =? 1); lia. }
  pose proof (GainVoltage_within least_squares "EE01" zero_junk _ Hcap) as Hrun.
  eexists. split; [exact Hrun|].
  assert (Hl : map fst (table_of (flat_map (channel_events least_squares "EE01"
                                             (stream_of_records pmt2_rows))
                                          (seqZ 0 NPMT)))
               = [2; 2; 2]).
  { rewrite (table_labels least_squares "EE01" zero_junk _ _ Hrun).
    unfold fitted_channels.
    change (seqZ 1 NPMT) with [1; 2; 3; 4; 5; 6; 7; 8; 9; 10].
    cbn [List.filter]. rewrite !count_pmt2_rows. reflexivity. }
  split; [exact Hl|]. rewrite Hl. discriminate.
Qed.

Lemma blocks_in_channel_order_witness :
  exists (tr tr' : list (event R)),
    GainVoltage least_squares "EE01" zero_junk (stream_of_records two_pmt_rows)
    = Done tr /\
    GainVoltage least_squares "EE01" one_junk
      (stream_of_records (rev two_pmt_rows))
    = Done tr' /\
    map fst (table_of tr) = [1; 1; 1; 3; 3; 3] /\
    map fst (table_of tr') = [1; 1; 1; 3; 3; 3].
Proof.
  destruct (blocks_in_channel_order least_squares "EE01" zero_junk one_junk
              (stream_of_records two_pmt_rows) (rev two_pmt_rows))
    as (tr & tr' & ks & Hrun & Hrun' & Hl & Hl' & _).
  - intros k _. rewrite (count_two_pmt_rows two_pmt_rows) by reflexivity.
    unfold RAW_SIZE. destruct (k =? 0), (k =? 2); lia.
  - rewrite records_stream_of_records. apply Permutation_rev.
  - exists tr, tr'. split; [exact Hrun|]. split; [exact Hrun'|].
    assert (Hblocks : map fst (table_of tr) = [1; 1; 1; 3; 3; 3]).
    { rewrite (table_labels least_squares "EE01" zero_junk _ _ Hrun).
      rewrite fitted_channels_two_pmt_rows. reflexivity. }
    split; [exact Hblocks|]. now rewrite Hl', <- Hl.
Defined.

Lemma fitted_channel_block_witness :
  exists (tr : list (event R)) (fit : TF1 R),
    GainVoltage least_squares "EE01" zero_junk (stream_of_records three_rows)
    = Done tr /\
    lines_of 1 tr
    = [placeholder_line; placeholder_line; data_line (par0 fit) (par1 fit) fit] /\
    ndf fit = 1.
Proof.
  destruct (fitted_channel_block least_squares "EE01" zero_junk
              (stream_of_records three_rows) 0)
    as (tr & Hrun & Hlines & _).
  - exact three_rows_fit_buffers.
  - unfold NPMT. lia.
  - rewrite count_three_rows. reflexivity.
  - intros g f. reflexivity.
  - exists tr. eexists. split; [exact Hrun|]. split; [exact Hlines|].
    rewrite Nat.iter_succ. cbn [least_squares ndf npoints graph_of].
    rewrite count_three_rows. reflexivity.
Defined.


Lemma buffers_hold_six_records_witness :
  (exists tr : list (event R),
     GainVoltage least_squares "EE01" zero_junk (stream_of_records three_rows)
     = Done tr) /\
  GainVoltage least_squares "EE01" zero_junk (stream_of_records seven_rows)
  = OutOfBounds RAW_SIZE.
Proof.
  split.
  - destruct (buffers_hold_six_records least_squares "EE01" zero_junk
                (stream_of_records three_rows)) as [Hin _].
    destruct (Hin three_rows_fit_buffers) as [Hrun _]. exact Hrun.
  - destruct (buffers_hold_six_records least_squares "EE01" zero_junk
                (stream_of_records seven_rows)) as [_ Hout].
    destruct (Hout 0) as [_ Hrun].
    + unfold NPMT. lia.
    + rewrite count_seven_rows. unfold RAW_SIZE. cbn. lia.
    + exact Hrun.
Defined.

(** ** Further properties of the reading *)

Section Frame.

Context {D : Type} `{DoubleOps D}.
Variable Fit : TGraphErrors D -> TF1 D -> TF1 D.
Variable chimney : string.

(** An iteration sees the input through the records of its own PMT only. *)
Lemma analyze_matching (junk junk' : stack_junk D) (input input' : list (token D))
    (pmt_num : Z) :
  matching pmt_num input = matching pmt_num input' ->
  analyze Fit chimney junk input pmt_num = analyze Fit chimney junk' input' pmt_num.
Proof.
  intros Hm.
  assert (Hc : count pmt_num input = count pmt_num input')
    by (unfold count; now rewrite Hm).
  destruct (le_lt_dec (count pmt_num input) RAW_SIZE) as [Hle | Hgt].
  - rewrite (analyze_within Fit chimney junk input pmt_num Hle).
    rewrite analyze_within by (rewrite <- Hc; exact Hle).
    unfold channel_events. now rewrite Hm, Hc.
  - rewrite (analyze_overflow Fit chimney junk input pmt_num Hgt).
    rewrite analyze_overflow by (rewrite <- Hc; exact Hgt). reflexivity.
Qed.

Lemma analyze_each_ext (junk junk' : Z -> stack_junk D)
    (input input' : list (token D)) (pmts : list Z) :
  (forall k, In k pmts ->
     analyze Fit chimney (junk k) input k = analyze Fit chimney (junk' k) input' k) ->
  analyze_each Fit chimney junk input pmts
  = analyze_each Fit chimney junk' input' pmts.
Proof.
  induction pmts as [|k pmts IH]; intros Hall; [reflexivity|].
  cbn [analyze_each]. rewrite (Hall k) by now left.
  rewrite IH by (intros j Hj; apply Hall; now right). reflexivity.
Qed.

(** X1: when no PMT overflows the buffers the run completes, and a PMT with
    a number of records other than three or six then does one thing only: it
    prints its diagnostic.  It calls [Fit] for no graph and prints no PDF. *)
Theorem skipped_channel_does_nothing_else (junk : Z -> stack_junk D)
    (input : list (token D)) (pmt_num : Z) :
  within_capacity input ->
  0 <= pmt_num < NPMT ->
  valid_count (count pmt_num input) = false ->
  exists tr : list (event D),
    GainVoltage Fit chimney junk input = Done tr /\
    events_of (pmt_num + 1) tr = [Cout (pmt_num + 1) (skip_message (pmt_num + 1))] /\
    fits_of (pmt_num + 1) tr = [] /\
    (forall k f, In (Print k f) tr -> k <> pmt_num + 1).
Proof.
  intros Hcap Hk Hskip.
  pose proof (GainVoltage_within Fit chimney junk input Hcap) as Hrun.
  pose proof (skipped_events Fit chimney junk input _ pmt_num Hrun Hk Hskip) as Hev.
  eexists. split; [exact Hrun|]. split; [exact Hev|]. split.
  - unfold fits_of. rewrite Hev. reflexivity.
  - intros k f Hin Heq. subst k.
    assert (Hin' : In (Print (pmt_num + 1) f)
                      (events_of (pmt_num + 1)
                         (flat_map (channel_events Fit chimney input) (seqZ 0 NPMT)))).
    { unfold events_of. apply filter_In. split; [exact Hin|].
      cbn [label]. apply Z.eqb_refl. }
    rewrite Hev in Hin'. destruct Hin' as [Hc | []]. discriminate.
Qed.

(** X2: the run depends on the input only through the list of records of
    each of the ten PMTs: two inputs that give every PMT the same records in
    the same order, however the records of different PMTs are interleaved and
    whatever else the inputs hold, have the same outcome. *)
Theorem run_depends_on_channel_records (junk junk' : Z -> stack_junk D)
    (input input' : list (token D)) :
  (forall k, 0 <= k < NPMT -> matching k input = matching k input') ->
  GainVoltage Fit chimney junk input = GainVoltage Fit chimney junk' input'.
Proof.
  intros Hm. unfold GainVoltage. apply analyze_each_ext.
  intros k Hk. apply analyze_matching. apply Hm. apply in_seqZ in Hk. lia.
Qed.

(** X3: a record whose PMT number is none of 1 to [NPMT] is ignored: the
    run on a file with the record is the run on the file without it. *)
Theorem unconfigured_record_ignored (junk : Z -> stack_junk D)
    (before after : list (measurement D)) (m : measurement D) :
  (forall k, 0 <= k < NPMT -> matches k m = false) ->
  GainVoltage Fit chimney junk (stream_of_records (before ++ m :: after))
  = GainVoltage Fit chimney junk (stream_of_records (before ++ after)).
Proof.
  intros Hm. unfold GainVoltage. apply analyze_each_ext.
  intros k Hk. apply analyze_matching. unfold matching.
  rewrite !records_stream_of_records, !List.filter_app. cbn [List.filter].
  rewrite Hm by (apply in_seqZ in Hk; lia). reflexivity.
Qed.

Lemma records_numbers_short (xs : list D) :
  (length xs < 4)%nat -> records (map Num xs) = [].
Proof.
  intros Hlen. rewrite <- (app_nil_r (map Num xs)). apply records_stop; auto.
Qed.

(** X4: the reading loop takes a stream of [n] numbers as [n / 4] records,
    the [i]-th made of the numbers at positions [4i] to [4i + 3], whatever
    the lines of the file were; the last [n mod 4] numbers are dropped. *)
Theorem numbers_grouped_by_four (xs : list D) :
  exists ms : list (measurement D),
    (forall pmt_num b,
       read_loop pmt_num (map Num xs) b = load pmt_num ms b) /\
    length ms = (length xs / 4)%nat /\
    (forall i m, ms !! i = Some m ->
       xs !! (4 * i)%nat = Some (m_pmt m) /\
       xs !! (4 * i + 1)%nat = Some (m_voltage m) /\
       xs !! (4 * i + 2)%nat = Some (m_gain m) /\
       xs !! (4 * i + 3)%nat = Some (m_gain_error m)).
Proof.
  exists (records (map Num xs)).
  split; [intros; apply read_loop_load|].
  assert (Hle : (length xs <= length xs)%nat) by lia.
  revert Hle. generalize (length xs) at 2. intros n.
  revert xs. induction n as [|n IH]; intros xs Hle.
  - destruct xs; [|simpl in Hle; lia]. split; [reflexivity|]. intros [|i] m Hm; discriminate.
  - destruct xs as [|x1 [|x2 [|x3 [|x4 rest]]]];
      try (split; [reflexivity | intros [|i] m Hm; cbn in Hm; discriminate]).
    destruct (IH rest) as [Hlen Hpos]; [simpl in Hle; lia|].
    cbn [map records length]. split.
    + rewrite Hlen.
      change (S (S (S (S (length rest))))) with (1 * 4 + length rest)%nat.
      rewrite Nat.div_add_l by lia. reflexivity.
    + intros [|i] m Hm.
      * cbn in Hm. injection Hm as <-. cbn. auto.
      * cbn [lookup list_lookup] in Hm. destruct (Hpos i m Hm) as (H0 & H1 & H2 & H3).
        replace (4 * S i)%nat with (S (S (S (S (4 * i))))) by lia.
        cbn [Nat.add lookup list_lookup]. auto.
Qed.

(** X6: an input without a complete record (no file, an empty file, a file
    that starts with a heading) makes a run that completes, prints the
    diagnostic of each of the ten PMTs in order and nothing else, and writes
    no line to the text file. *)
Theorem no_record_all_skipped (junk : Z -> stack_junk D) (input : list (token D)) :
  records input = [] ->
  GainVoltage Fit chimney junk input
  = Done (map (fun k => Cout k (skip_message k)) (seqZ 1 NPMT)) /\
  written_table (GainVoltage Fit chimney junk input) = Done [].
Proof.
  intros Hrec.
  assert (Hrun : GainVoltage Fit chimney junk input
                 = Done (map (fun k => Cout k (skip_message k)) (seqZ 1 NPMT))).
  { rewrite (GainVoltage_records Fit chimney junk junk input []) by exact Hrec.
    reflexivity. }
  split; [exact Hrun|]. rewrite Hrun. reflexivity.
Qed.

End Frame.

(** ** Strings *)

Lemma string_length_app (s t : string) :
  String.length (s +:+ t) = (String.length s + String.length t)%nat.
Proof.
  induction s as [|c s IH]; [reflexivity|].
  change (String c s +:+ t) with (String c (s +:+ t)). cbn [String.length].
  now rewrite IH.
Qed.


(** Two strings with endings of the same length are equal only when the
    endings and what stands before them are equal. *)
Lemma string_app_inj_tail (a b x y : string) :
  String.length x = String.length y ->
  a +:+ x = b +:+ y -> a = b /\ x = y.
Proof.
  intros Hlen. revert b. induction a as [|c a IH]; intros [|d b] Heq.
  - split; [reflexivity | exact Heq].
  - exfalso. change ("" +:+ x) with x in Heq. subst x.
    rewrite string_length_app in Hlen. cbn [String.length] in Hlen. lia.
  - exfalso. change ("" +:+ y) with y in Heq. subst y.
    rewrite string_length_app in Hlen. cbn [String.length] in Hlen. lia.
  - change (String c (a +:+ x) = String d (b +:+ y)) in Heq.
    injection Heq as -> Heq. destruct (IH b Heq) as [-> ->]. split; reflexivity.
Qed.

Lemma outnamepdf_inj (chimney : string) (a b : Z) :
  outnamepdf chimney a = outnamepdf chimney b -> a = b.
Proof.
  unfold outnamepdf. intros Heq.
  apply String.app_inj in Heq. apply String.app_inj in Heq.
  apply string_app_inj_tail in Heq as [Heq _]; [|reflexivity].
  apply pretty_Z_inj in Heq. lia.
Qed.

Lemma NoDup_map_inj {A B : Type} (f : A -> B) (l : list A) :
  (forall x y, f x = f y -> x = y) -> List.NoDup l -> List.NoDup (map f l).
Proof.
  intros Hinj. induction 1 as [|x l Hx _ IH]; [constructor|].
  cbn [map]. constructor; [|exact IH].
  intros Hin. apply in_map_iff in Hin as (y & Hy & Hin).
  apply Hinj in Hy. subst y. contradiction.
Qed.

Lemma flat_map_single {A B : Type} (f : A -> B) (l : list A) :
  flat_map (fun x => [f x]) l = map f l.
Proof. induction l as [|x l IH]; [reflexivity|]. cbn. now rewrite IH. Qed.

(** ** Further properties of a run *)

Section Run.

Context {D : Type} `{DoubleOps D}.
Variable Fit : TGraphErrors D -> TF1 D -> TF1 D.
Variable chimney : string.

Lemma console_of_app (tr tr' : list (event D)) :
  console_of (tr ++ tr') = console_of tr ++ console_of tr'.
Proof. apply flat_map_app. Qed.

Lemma prints_of_app (tr tr' : list (event D)) :
  prints_of (tr ++ tr') = prints_of tr ++ prints_of tr'.
Proof. apply flat_map_app. Qed.

Lemma console_of_fit_calls (pmt : Z) (data : TGraphErrors D) (ss : list (TF1 D)) :
  console_of (map (FitCall pmt data) ss) = [].
Proof. induction ss as [|s ss IH]; [reflexivity|]. exact IH. Qed.

Lemma prints_of_fit_calls (pmt : Z) (data : TGraphErrors D) (ss : list (TF1 D)) :
  prints_of (map (FitCall pmt data) ss) = [].
Proof. induction ss as [|s ss IH]; [reflexivity|]. exact IH. Qed.

Lemma console_of_channel (input : list (token D)) (pmt_num : Z) :
  console_of (channel_events Fit chimney input pmt_num)
  = [(pmt_num + 1,
      if valid_count (count pmt_num input) then fitting_message (pmt_num + 1)
      else skip_message (pmt_num + 1))].
Proof.
  unfold channel_events. destruct (valid_count (count pmt_num input)) eqn:Hv.
  - rewrite fit_and_report_fit by exact Hv. rewrite fit_channel_calls.
    rewrite !console_of_app, console_of_fit_calls. reflexivity.
  - rewrite fit_and_report_skip by exact Hv. reflexivity.
Qed.

Lemma prints_of_channel (input : list (token D)) (pmt_num : Z) :
  prints_of (channel_events Fit chimney input pmt_num)
  = if valid_count (count pmt_num input)
    then [(pmt_num + 1, outnamepdf chimney pmt_num)] else [].
Proof.
  unfold channel_events. destruct (valid_count (count pmt_num input)) eqn:Hv.
  - rewrite fit_and_report_fit by exact Hv. rewrite fit_channel_calls.
    rewrite !prints_of_app, prints_of_fit_calls. reflexivity.
  - rewrite fit_and_report_skip by exact Hv. reflexivity.
Qed.

(** X7: when no PMT overflows the buffers the run completes, and the
    console then shows exactly one line from the macro for each PMT, for PMT
    1 to PMT [NPMT] in this order: ["Fitting k"] for a PMT with three or six
    records, the diagnostic for any other. *)
Theorem console_reports_every_pmt_once (junk : Z -> stack_junk D)
    (input : list (token D)) :
  within_capacity input ->
  exists tr : list (event D),
    GainVoltage Fit chimney junk input = Done tr /\
    console_of tr
    = map (fun k => (k, if valid_count (count (k - 1) input)
                        then fitting_message k else skip_message k))
          (seqZ 1 NPMT).
Proof.
  intros Hcap. eexists. split; [now apply GainVoltage_within|].
  change (seqZ 1 NPMT) with (map (fun j => j + 1) (seqZ 0 NPMT)).
  induction (seqZ 0 NPMT) as [|j l IH]; [reflexivity|].
  cbn [flat_map map]. rewrite console_of_app, IH, console_of_channel.
  rewrite Z.add_simpl_r. reflexivity.
Qed.

(** X8: when no PMT overflows the buffers the run completes, and every
    call of [Fit] in it is for one of PMT 1 to PMT [NPMT], on the graph of
    the regression inputs of that PMT: a graph of three or of six points
    whose four arrays have exactly that many entries. *)
Theorem fit_only_on_three_or_six_points (junk : Z -> stack_junk D)
    (input : list (token D)) :
  within_capacity input ->
  exists tr : list (event D),
    GainVoltage Fit chimney junk input = Done tr /\
    forall k g f, In (FitCall k g f) tr ->
      1 <= k <= NPMT /\
      g = graph_of (count (k - 1) input) (arrays_of (matching (k - 1) input)) /\
      (npoints g = 3%nat \/ npoints g = 6%nat) /\
      length (gx g) = npoints g /\ length (gy g) = npoints g /\
      length (gex g) = npoints g /\ length (gey g) = npoints g.
Proof.
  intros Hcap. eexists. split; [now apply GainVoltage_within|].
  intros k g f Hin.
  apply in_flat_map in Hin as (j & Hj & Hin). apply in_seqZ in Hj.
  unfold channel_events in Hin.
  destruct (valid_count (count j input)) eqn:Hv.
  - rewrite fit_and_report_fit in Hin by exact Hv.
    rewrite fit_channel_calls in Hin.
    apply in_app_or in Hin as [Hc | Hin]; [destruct Hc as [Hc | []]; discriminate|].
    apply in_app_or in Hin as [Hin | Hc].
    + apply in_map_iff in Hin as (s & Hs & _). injection Hs as <- <- <-.
      rewrite Z.add_simpl_r. split; [unfold NPMT in *; lia|].
      split; [reflexivity|].
      unfold graph_of, arrays_of. cbn [npoints gx gy gex gey voltage gain
                                        voltage_error gain_error].
      split; [now apply valid_count_true|].
      rewrite !length_map. unfold count. repeat split; reflexivity.
    + cbv zeta in Hc.
      destruct Hc as [Hc | [Hc | [Hc | [Hc | [Hc | []]]]]]; discriminate.
  - rewrite fit_and_report_skip in Hin by exact Hv.
    destruct Hin as [Hc | []]. discriminate.
Qed.

(** X9: when no PMT overflows the buffers the run completes, and it then
    prints one PDF for each fitted PMT and no other, under the name
    [chimney_k_gainvsvoltage.pdf] of that PMT; no two of these names are the
    same, so no PDF replaces another. *)
Theorem one_pdf_per_fitted_pmt (junk : Z -> stack_junk D) (input : list (token D)) :
  within_capacity input ->
  exists tr : list (event D),
    GainVoltage Fit chimney junk input = Done tr /\
    prints_of tr
    = map (fun k => (k, outnamepdf chimney (k - 1))) (fitted_channels input) /\
    List.NoDup (map snd (prints_of tr)).
Proof.
  intros Hcap. eexists. split; [now apply GainVoltage_within|].
  assert (Hp : prints_of (flat_map (channel_events Fit chimney input) (seqZ 0 NPMT))
               = map (fun k => (k, outnamepdf chimney (k - 1)))
                     (fitted_channels input)).
  { unfold fitted_channels.
    change (seqZ 1 NPMT) with (map (fun j => j + 1) (seqZ 0 NPMT)).
    rewrite <- flat_map_single.
    rewrite <- (flat_map_shift (fun j => valid_count (count j input))
                               (fun k => [(k, outnamepdf chimney (k - 1))])).
    induction (seqZ 0 NPMT) as [|j l IH]; [reflexivity|].
    cbn [flat_map]. rewrite prints_of_app, IH, prints_of_channel.
    rewrite Z.add_simpl_r. reflexivity. }
  split; [exact Hp|]. rewrite Hp, map_map. cbn [snd].
  apply NoDup_map_inj.
  - intros a b Heq. apply outnamepdf_inj in Heq. lia.
  - unfold fitted_channels. apply List.NoDup_filter, NoDup_seqZ_list.
Qed.

Lemma iter_fixed {A : Type} (f : A -> A) (x : A) (n : nat) :
  f x = x -> Nat.iter n f x = x.
Proof.
  intros Hx. induction n as [|n IH]; [reflexivity|].
  now rewrite Nat.iter_succ, IH.
Qed.

Lemma pass_starts_fixed (n : nat) (data : TGraphErrors D) (s : TF1 D) :
  Fit data s = s -> pass_starts Fit n data s = replicate n s.
Proof.
  intros Hs. induction n as [|n IH]; [reflexivity|].
  cbn [pass_starts replicate]. rewrite Hs, SetParameters_own, IH. reflexivity.
Qed.

(** X14: when the first fit has converged, in that fitting its result again
    gives that result, the nine further passes change nothing: each of them
    calls [Fit] on the result of the first pass, and the function whose
    figures are reported is that result. *)
Theorem converged_fit_is_final (pmt : Z) (data : TGraphErrors D) :
  let seed := SetParameters (of_int (-30)) (of_int 7) (TF1_new fbegin fend) in
  let first := Fit data seed in
  Fit data first = first ->
  fst (fit_channel Fit pmt data) = first /\
  snd (fit_channel Fit pmt data)
  = FitCall pmt data seed :: replicate 9 (FitCall pmt data first).
Proof.
  intros seed first Hfix. split.
  - rewrite fit_channel_iter. fold seed.
    rewrite (Nat.iter_succ_r 9). fold first. now apply iter_fixed.
  - rewrite fit_channel_calls. fold seed.
    change (pass_starts Fit 10 data seed)
      with (seed :: pass_starts Fit 9 data
                      (SetParameters (par0 first) (par1 first) first)).
    rewrite SetParameters_own, (pass_starts_fixed 9 data first Hfix).
    reflexivity.
Qed.

End Run.

(** ** File names and the canvas name *)


(** X11: in every iteration of the PMT loop the canvas name, with its
    terminating zero, fits the buffer of [TEMPNAME_SIZE] characters that
    [sprintf] writes it to, and it is the name of no other canvas. *)
Theorem canvas_name_fits (pmt_num : Z) :
  0 <= pmt_num < NPMT ->
  (String.length (tempname pmt_num) + 1 <= TEMPNAME_SIZE)%nat /\
  (forall other, tempname other = tempname pmt_num -> other = pmt_num).
Proof.
  intros Hk. split.
  - assert (Hcases : pmt_num = 0 \/ pmt_num = 1 \/ pmt_num = 2 \/ pmt_num = 3 \/
                     pmt_num = 4 \/ pmt_num = 5 \/ pmt_num = 6 \/ pmt_num = 7 \/
                     pmt_num = 8 \/ pmt_num = 9) by (unfold NPMT in Hk; lia).
    unfold TEMPNAME_SIZE.
    repeat (destruct Hcases as [-> | Hcases]; [vm_compute; lia|]).
    subst pmt_num. vm_compute. lia.
  - intros other Heq. unfold tempname in Heq.
    apply String.app_inj in Heq. now apply pretty_Z_inj in Heq.
Qed.

Lemma canvas_name_fits_witness :
  (String.length (tempname 9) + 1 <= TEMPNAME_SIZE)%nat.
Proof.
  apply (canvas_name_fits 9). unfold NPMT. lia.
Defined.

(** X12: the loop of lines 39 to 41 fills the array of ten PDF names without
    leaving it, and leaves at every index the loop over the PMTs reads
    later, [outnamepdf[pmt_num]], the name of that PMT,
    [chimney_(pmt_num+1)_gainvsvoltage.pdf]. *)
Theorem outnamepdf_array_filled (chimney : string) :
  exists names : list string,
    outnamepdf_array chimney = Done names /\
    length names = OUTNAMEPDF_SIZE /\
    (forall pmt_num, 0 <= pmt_num < NPMT ->
       names !! Z.to_nat pmt_num
       = Some (chimney +:+ "_" +:+ pretty (pmt_num + 1) +:+ "_gainvsvoltage.pdf")).
Proof.
  exists (map (outnamepdf chimney) (seqZ 0 NPMT)).
  split; [reflexivity|]. split; [reflexivity|].
  intros pmt_num Hk.
  assert (Hcases : pmt_num = 0 \/ pmt_num = 1 \/ pmt_num = 2 \/ pmt_num = 3 \/
                   pmt_num = 4 \/ pmt_num = 5 \/ pmt_num = 6 \/ pmt_num = 7 \/
                   pmt_num = 8 \/ pmt_num = 9) by (unfold NPMT in Hk; lia).
  repeat (destruct Hcases as [-> | Hcases]; [reflexivity|]).
  subst pmt_num. reflexivity.
Qed.

(** ** Further examples *)

Lemma skipped_channel_does_nothing_else_witness :
  exists tr : list (event R),
    GainVoltage least_squares "EE01" zero_junk (stream_of_records three_rows)
    = Done tr /\
    fits_of 2 tr = [].
Proof.
  destruct (skipped_channel_does_nothing_else least_squares "EE01" zero_junk
              (stream_of_records three_rows) 1)
    as (tr & Hrun & _ & Hfits & _).
  - exact three_rows_fit_buffers.
  - unfold NPMT. lia.
  - rewrite count_three_rows. reflexivity.
  - exists tr. split; [exact Hrun | exact Hfits].
Defined.

Lemma run_depends_on_channel_records_witness :
  GainVoltage least_squares "EE01" zero_junk
    (stream_of_records (three_rows ++ [row 2 1500]))
  = GainVoltage least_squares "EE01" one_junk
      (stream_of_records (row 2 1500 :: three_rows)).
Proof.
  apply (run_depends_on_channel_records least_squares "EE01").
  intros k _. unfold matching. rewrite !records_stream_of_records.
  unfold three_rows. cbn [app List.filter]. rewrite !matches_row.
  destruct (Z.eqb_spec 1 (k + 1)), (Z.eqb_spec 2 (k + 1)); try reflexivity. lia.
Defined.

Lemma unconfigured_record_ignored_witness :
  GainVoltage least_squares "EE01" zero_junk
    (stream_of_records (three_rows ++ [row 11 1000]))
  = GainVoltage least_squares "EE01" zero_junk
      (stream_of_records (three_rows ++ [])).
Proof.
  apply (unconfigured_record_ignored least_squares "EE01" zero_junk
           three_rows [] (row 11 1000)).
  intros k Hk. rewrite matches_row. unfold NPMT in Hk.
  destruct (Z.eqb_spec 11 (k + 1)); [lia | reflexivity].
Defined.

Lemma incomplete_last_record_dropped_witness :
  GainVoltage least_squares "EE01" zero_junk
    (stream_of_records three_rows ++ map Num [IZR 1; IZR 2500])
  = GainVoltage least_squares "EE01" zero_junk (stream_of_records three_rows).
Proof.
  apply (incomplete_last_record_dropped least_squares "EE01" zero_junk
           three_rows [IZR 1; IZR 2500]).
  cbn. lia.
Defined.

Lemma no_record_all_skipped_witness :
  written_table (GainVoltage least_squares "EE01" zero_junk (stream_of headed_file))
  = Done [].
Proof.
  apply (no_record_all_skipped least_squares "EE01" zero_junk
           (stream_of headed_file)).
  reflexivity.
Defined.

Lemma console_reports_every_pmt_once_witness :
  exists tr : list (event R),
    GainVoltage least_squares "EE01" zero_junk (stream_of_records three_rows)
    = Done tr /\
    map fst (console_of tr) = seqZ 1 NPMT.
Proof.
  destruct (console_reports_every_pmt_once least_squares "EE01" zero_junk
              (stream_of_records three_rows) three_rows_fit_buffers)
    as (tr & Hrun & Hc).
  exists tr. split; [exact Hrun|]. rewrite Hc, map_map. cbn [fst].
  apply map_id.
Defined.

Lemma fit_only_on_three_or_six_points_witness :
  exists tr : list (event R),
    GainVoltage least_squares "EE01" zero_junk (stream_of_records three_rows)
    = Done tr /\
    forall k g f, In (FitCall k g f) tr -> npoints g = 3%nat \/ npoints g = 6%nat.
Proof.
  destruct (fit_only_on_three_or_six_points least_squares "EE01" zero_junk
              (stream_of_records three_rows) three_rows_fit_buffers)
    as (tr & Hrun & Hfits).
  exists tr. split; [exact Hrun|]. intros k g f Hin.
  destruct (Hfits k g f Hin) as (_ & _ & Hn & _). exact Hn.
Defined.

Lemma one_pdf_per_fitted_pmt_witness :
  exists tr : list (event R),
    GainVoltage least_squares "EE01" zero_junk (stream_of_records three_rows)
    = Done tr /\
    List.NoDup (map snd (prints_of tr)).
Proof.
  destruct (one_pdf_per_fitted_pmt least_squares "EE01" zero_junk
              (stream_of_records three_rows) three_rows_fit_buffers)
    as (tr & Hrun & _ & Hnd).
  exists tr. split; [exact Hrun | exact Hnd].
Defined.

Lemma converged_fit_is_final_witness :
  fst (fit_channel least_squares 1 (graph_of 3 (arrays_of three_rows)))
  = least_squares (graph_of 3 (arrays_of three_rows))
      (SetParameters (of_int (-30)) (of_int 7) (TF1_new fbegin fend)).
Proof.
  apply (converged_fit_is_final least_squares 1 (graph_of 3 (arrays_of three_rows))).
  reflexivity.
Defined.

(** ** The curve over the linear plot *)

Section Curve.

Context {D : Type} `{DoubleOps D}.
Variable Fit : TGraphErrors D -> TF1 D -> TF1 D.
Variable chimney : string.

(** X15: when no PMT overflows the buffers the run completes, and for a
    fitted PMT the curve over the linear plot is then given exactly one pair
    of parameters: as amplitude [TMath::Exp] of the constant that stands on
    the data line of the PMT, as exponent the exponent that stands there,
    both of the function after the tenth pass. *)
Theorem gain_curve_parameters (junk : Z -> stack_junk D) (input : list (token D))
    (pmt_num : Z) :
  within_capacity input ->
  0 <= pmt_num < NPMT ->
  valid_count (count pmt_num input) = true ->
  let data := graph_of (count pmt_num input) (arrays_of (matching pmt_num input)) in
  let fit :=
    Nat.iter 10 (Fit data)
             (SetParameters (of_int (-30)) (of_int 7) (TF1_new fbegin fend)) in
  let constant := par0 fit in
  let exponent := par1 fit in
  exists tr : list (event D),
    GainVoltage Fit chimney junk input = Done tr /\
    In (Fout (pmt_num + 1) (data_line constant exponent fit)) tr /\
    In (GainFunc (pmt_num + 1) (Exp constant) exponent) tr /\
    (forall a e, In (GainFunc (pmt_num + 1) a e) tr ->
                 a = Exp constant /\ e = exponent).
Proof.
  intros Hcap Hk Hvalid data fit constant exponent.
  pose proof (GainVoltage_within Fit chimney junk input Hcap) as Hrun.
  eexists. split; [exact Hrun|].
  set (tr := flat_map (channel_events Fit chimney input) (seqZ 0 NPMT)) in *.
  pose proof (fitted_events Fit chimney junk input tr pmt_num Hrun Hk Hvalid)
    as Hev.
  cbv zeta in Hev. fold data in Hev.
  rewrite (fit_channel_iter Fit (pmt_num + 1) data) in Hev.
  fold fit in Hev. fold constant exponent in Hev.
  assert (Hin : forall e, In e (events_of (pmt_num + 1) tr) -> In e tr).
  { intros e He. unfold events_of in He. now apply filter_In in He. }
  split; [|split].
  - apply Hin. rewrite Hev. apply in_or_app. right. apply in_or_app. right.
    right. right. left. reflexivity.
  - apply Hin. rewrite Hev. apply in_or_app. right. apply in_or_app. right.
    right. right. right. left. reflexivity.
  - intros a e Hg.
    assert (Hg' : In (GainFunc (pmt_num + 1) a e) (events_of (pmt_num + 1) tr)).
    { unfold events_of. apply filter_In. split; [exact Hg|].
      cbn [label]. apply Z.eqb_refl. }
    rewrite Hev in Hg'.
    apply in_app_or in Hg' as [Hc | Hg']; [destruct Hc as [Hc | []]; discriminate|].
    apply in_app_or in Hg' as [Hc | Hg'].
    { apply in_map_iff in Hc as (s & Hs & _). discriminate. }
    destruct Hg' as [Hc | [Hc | [Hc | [Hc | [Hc | []]]]]]; try discriminate.
    injection Hc as <- <-. split; reflexivity.
Qed.

End Curve.

Lemma gain_curve_parameters_witness :
  exists (tr : list (event R)) (constant exponent : R),
    GainVoltage least_squares "EE01" zero_junk (stream_of_records three_rows)
    = Done tr /\
    In (GainFunc 1 (exp constant) exponent) tr.
Proof.
  destruct (gain_curve_parameters least_squares "EE01" zero_junk
              (stream_of_records three_rows) 0)
    as (tr & Hrun & _ & Hg & _).
  - exact three_rows_fit_buffers.
  - unfold NPMT. lia.
  - rewrite count_three_rows. reflexivity.
  - exists tr. eexists. eexists. split; [exact Hrun | exact Hg].
Defined.
